(** * The link feature of the editor (packages/ckeditor5-link/src/link.js)

    A shallow embedding of the [Link] feature: the balloon panel, the
    listeners it installs and removes, and the handlers of the toolbar
    buttons, the keystroke, the document click, the render notification
    and the panel's own actions.

    Handlers mutate the feature's state (panel visibility, the listener
    registry) and call collaborators; they are written in a small state
    and exception monad.  What the handlers read from the outside world
    (the view tree, the live selection, DOM containment, the value of the
    URL field, what the command layer answers) is an environment [Env]
    given with each event. *)

From Stdlib Require Import List String Bool Arith Lia.
Import ListNotations.
Open Scope string_scope.
Open Scope list_scope.

(** ** The view: nodes, positions, selection *)

(** A view node is named by its identity; [parentLink !== ...] in the
    source compares identities. *)
Definition NodeRef := nat.

(** What the source asks of a node: [node.getAncestors()] and
    [ancestor instanceof LinkElement]. *)
Record ViewTree := {
  getAncestors : NodeRef -> list NodeRef;
  instanceofLinkElement : NodeRef -> bool
}.

Record Position := { parent : NodeRef; offset : nat }.

Record Range := { rangeStart : Position; rangeEnd : Position }.

(** The selection as the feature observes it: the getters it reads.
    [getFirstPosition] and [getFirstRange] answer [None] for JavaScript's
    [null]. *)
Record Selection := {
  getFirstPosition : option Position;
  getFirstRange : option Range;
  isCollapsed : bool;
  editableElement : option NodeRef
}.

(** The exceptions that can cross the feature: the TypeError of reading
    a property of [null], and whatever [editor.execute] throws. *)
Inductive Error := TypeError | CommandError.

(** [getPositionParentLink( position )], lines 327-329:
    [position.parent.getAncestors().find( a => a instanceof LinkElement )].
    Reading [.parent] of [null] raises a TypeError; [find] answers
    [undefined] (here [None]) when no ancestor is a link element. *)
Definition getPositionParentLink (t : ViewTree) (position : option Position)
  : Error + option NodeRef :=
  match position with
  | None => inl TypeError
  | Some p => inr (find (instanceofLinkElement t) (getAncestors t (parent p)))
  end.

(** ** DOM side *)

Definition DomNode := nat.

Record DomEvt := { target : DomNode; keyCode : nat }.

(** What [domConverter] hands to the panel: the DOM element of a view
    element or the DOM range of a view range.  The converter is a
    collaborator; its results are kept symbolic. *)
Inductive DomTarget :=
| DomElementOf (viewElement : option NodeRef)
| DomRangeOf (viewRange : option Range).

(** ** Emitters, listeners and callbacks *)

Inductive Emitter :=
| LinkButtonModel | UnlinkButtonModel | PanelModel | PanelViewModel
| ViewDocument | DomDocument | Keystrokes.

(** The two objects that call [listenTo]: the feature ([this]) and
    [this.balloonPanel.view]. *)
Inductive Listener := LinkFeature | BalloonPanelView.

(** The closures and bound methods the source registers.  [OnRender]
    captures [parentLink] of the click that created it. *)
Inductive Callback :=
| OnLinkButtonExecute
| OnUnlinkButtonExecute
| OnExecuteLink
| OnExecuteUnlink
| OnExecuteCancel
| OnChangeIsVisible
| ClosePanelOnClick
| OnMouseup
| OnClick
| OnRender (parentLink : NodeRef)
| OnCtrlL.

(** One registered callback.  [listener] is [None] for a callback
    registered with [emitter.on] directly, which no [stopListening]
    reaches.  [sid] tells apart closures created by different calls. *)
Record Subscription := {
  sid : nat;
  listener : option Listener;
  emitter : Emitter;
  event : string;
  callback : Callback
}.

Definition Emitter_eqb (a b : Emitter) : bool :=
  match a, b with
  | LinkButtonModel, LinkButtonModel | UnlinkButtonModel, UnlinkButtonModel
  | PanelModel, PanelModel | PanelViewModel, PanelViewModel
  | ViewDocument, ViewDocument | DomDocument, DomDocument
  | Keystrokes, Keystrokes => true
  | _, _ => false
  end.

Definition Listener_eqb (a b : Listener) : bool :=
  match a, b with
  | LinkFeature, LinkFeature | BalloonPanelView, BalloonPanelView => true
  | _, _ => false
  end.

Definition listenedBy (l : Listener) (em : Emitter) (sub : Subscription) : bool :=
  match listener sub with
  | Some l' => Listener_eqb l l' && Emitter_eqb em (emitter sub)
  | None => false
  end.

Definition subscribedTo (em : Emitter) (ev : string) (sub : Subscription) : bool :=
  Emitter_eqb em (emitter sub) && String.eqb ev (event sub).

(** ** Calls to collaborators, in the order they are made *)

(** What becomes of a call to [editor.execute]: it returns, having
    applied the change or not (the source discards what it returns), or
    it throws. *)
Inductive Outcome := Applied | Failed | Thrown.

Inductive Call :=
| CallExecute (command : string) (param : option string) (outcome : Outcome)
| CallAttachTo (elementOrRange : DomTarget) (limiter : DomTarget)
| CallHide
| CallFocus
| CallUrlInputSelect.

(** ** State of the feature *)

Record State := {
  isVisible : bool;                             (* balloonPanel.view.model.isVisible *)
  anchoredTo : option (DomTarget * DomTarget);  (* arguments of the last attachTo *)
  listeners : list Subscription;                (* every registered callback, oldest first *)
  nextSid : nat;
  trace : list Call                             (* collaborator calls, oldest first *)
}.

(** The outside world at the time of an event. *)
Record Env := {
  tree : ViewTree;
  selection : Selection;                        (* viewDocument.selection, live *)
  isFocused : bool;                             (* viewDocument.isFocused *)
  urlInputValue : string;                       (* balloonPanel.urlInput.value *)
  panelElementContains : DomNode -> bool;       (* balloonPanel.view.element.contains *)
  editorUiElementContains : DomNode -> bool;    (* editor.ui.view.element.contains *)
  executeOutcome : string -> option string -> Outcome
}.

(** ** State and exception monad *)

Inductive Res (A : Type) :=
| Ok (a : A) (s : State)
| Throw (e : Error) (s : State).
Arguments Ok {A} a s.
Arguments Throw {A} e s.

Definition M (A : Type) := State -> Res A.

Definition ret {A} (a : A) : M A := fun s => Ok a s.

Definition throw {A} (e : Error) : M A := fun s => Throw e s.

Definition bind {A B} (m : M A) (k : A -> M B) : M B :=
  fun s => match m s with
           | Ok a s' => k a s'
           | Throw e s' => Throw e s'
           end.

Declare Scope js_scope.
Delimit Scope js_scope with js.
Notation "x <- m ;; k" := (bind m (fun x => k))
  (at level 61, m at next level, right associativity) : js_scope.
Notation "m ;; k" := (bind m (fun _ => k))
  (at level 61, right associativity) : js_scope.
Open Scope js_scope.

Definition lift {A} (r : Error + A) : M A :=
  match r with
  | inl e => throw e
  | inr a => ret a
  end.

(** The state an event handler leaves behind, whether it returned or
    threw: the event loop goes on from there. *)
Definition stateOf {A} (r : Res A) : State :=
  match r with
  | Ok _ s => s
  | Throw _ s => s
  end.

Definition log (c : Call) : M unit :=
  fun s => Ok tt {| isVisible := isVisible s; anchoredTo := anchoredTo s;
                    listeners := listeners s; nextSid := nextSid s;
                    trace := trace s ++ [c] |}.

(** ** The emitter mixin *)

Definition register (l : option Listener) (em : Emitter) (ev : string) (cb : Callback)
  : M unit :=
  fun s => Ok tt {| isVisible := isVisible s; anchoredTo := anchoredTo s;
                    listeners := listeners s ++
                      [ {| sid := nextSid s; listener := l; emitter := em;
                           event := ev; callback := cb |} ];
                    nextSid := S (nextSid s);
                    trace := trace s |}.

(** [listener.listenTo( emitter, event, callback )]. *)
Definition listenTo (l : Listener) := register (Some l).

(** [emitter.on( event, callback )]. *)
Definition on := register None.

(** [listener.stopListening( emitter )]: drops every callback the
    listener registered on that emitter, whatever the event. *)
Definition stopListening (l : Listener) (em : Emitter) : M unit :=
  fun s => Ok tt {| isVisible := isVisible s; anchoredTo := anchoredTo s;
                    listeners := filter (fun sub => negb (listenedBy l em sub)) (listeners s);
                    nextSid := nextSid s;
                    trace := trace s |}.

(** How [fire] treats a callback that an earlier callback of the same
    dispatch removed: still called ([Snapshot]) or skipped ([Live]).  The
    emitter is not part of this file; every result below holds for
    both. *)
Inductive DispatchPolicy := Snapshot | Live.

Section Feature.

Variable policy : DispatchPolicy.

Definition delivered (sub : Subscription) (s : State) : bool :=
  match policy with
  | Snapshot => true
  | Live => existsb (fun x => Nat.eqb (sid x) (sid sub)) (listeners s)
  end.

(** [fire]: the callbacks registered when the event is fired are called
    in registration order; an exception leaves the dispatch. *)
Fixpoint dispatch (call : Callback -> M unit) (subs : list Subscription) : M unit :=
  match subs with
  | [] => ret tt
  | sub :: rest =>
      fun s => if delivered sub s
               then (call (callback sub) ;; dispatch call rest) s
               else dispatch call rest s
  end.

Definition fire (call : Callback -> M unit) (em : Emitter) (ev : string) : M unit :=
  fun s => dispatch call (filter (subscribedTo em ev) (listeners s)) s.

(** ** The balloon panel view *)

(** The [change:isVisible] handler, lines 196-222.  [value] is the new
    value of the property. *)
Definition onChangeIsVisible (value : bool) : M unit :=
  if value then
    listenTo BalloonPanelView DomDocument "keydown" ClosePanelOnClick ;;
    listenTo BalloonPanelView DomDocument "mouseup" OnMouseup
  else
    stopListening BalloonPanelView DomDocument ;;
    stopListening LinkFeature ViewDocument.

(** Callbacks of the observable's change event.  The handler above is
    the only callback the source ever registers on the panel view's
    model (see [WF_static] below); no other one is interpreted here. *)
Definition notify (value : bool) (cb : Callback) : M unit :=
  match cb with
  | OnChangeIsVisible => onChangeIsVisible value
  | _ => ret tt
  end.

(** Modelled from the spec: the observable property [isVisible] of the
    view-positioning collaborator (the balloon panel view, not in this
    file).  It reports its own visibility-changed notifications: setting
    the value it already has notifies nobody. *)
Definition setIsVisible (value : bool) : M unit :=
  fun s =>
    if Bool.eqb (isVisible s) value then Ok tt s
    else fire (notify value) PanelViewModel "change:isVisible"
           {| isVisible := value; anchoredTo := anchoredTo s;
              listeners := listeners s; nextSid := nextSid s;
              trace := trace s |}.

(** Modelled from the spec: [attachTo( screenRegion, containingElement )]
    of the view-positioning collaborator anchors the panel and shows
    it. *)
Definition attachTo (elementOrRange limiter : DomTarget) : M unit :=
  log (CallAttachTo elementOrRange limiter) ;;
  (fun s => Ok tt {| isVisible := isVisible s;
                     anchoredTo := Some (elementOrRange, limiter);
                     listeners := listeners s; nextSid := nextSid s;
                     trace := trace s |}) ;;
  setIsVisible true.

(** Modelled from the spec: [hide()] of the view-positioning
    collaborator makes the panel invisible and leaves it where it is. *)
Definition hide : M unit :=
  log CallHide ;; setIsVisible false.

(** ** The feature's methods *)

Variable env : Env.

(** Modelled from the spec: the mutation engine behind
    [editor.execute( command, param )] is a synchronous collaborator
    that can fail.  The call is made; it then returns its outcome or
    throws, and the source has no handler around it. *)
Definition execute (command : string) (param : option string) : M Outcome :=
  let o := executeOutcome env command param in
  log (CallExecute command param o) ;;
  match o with
  | Thrown => throw CommandError
  | _ => ret o
  end.

(** [_attachPanelToElement( parentLink )], lines 271-290. *)
Definition _attachPanelToElement (parentLink : option NodeRef) : M unit :=
  let domEditableElement := DomElementOf (editableElement (selection env)) in
  targetLink <- match parentLink with
                | Some l => ret (Some l)
                | None => lift (getPositionParentLink (tree env)
                                  (getFirstPosition (selection env)))
                end ;;
  match targetLink with
  | Some l => attachTo (DomElementOf (Some l)) domEditableElement
  | None => attachTo (DomRangeOf (getFirstRange (selection env))) domEditableElement
  end.

(** [_hidePanel( options )], lines 299-305. *)
Definition _hidePanel (focusDocument : bool) : M unit :=
  hide ;;
  if focusDocument then log CallFocus else ret tt.

(** [_closePanelOnClick( evt, domEvt )], lines 316-320. *)
Definition _closePanelOnClick (domEvt : option DomEvt) : M unit :=
  match domEvt with
  | None => throw TypeError
  | Some d => if Nat.eqb (keyCode d) 27 then _hidePanel true else ret tt
  end.

Definition sameLink (a : NodeRef) (b : option NodeRef) : bool :=
  match b with
  | Some b' => Nat.eqb a b'
  | None => false
  end.

(** The [mouseup] closure, lines 204-217. *)
Definition onMouseup (domEvt : option DomEvt) : M unit :=
  match domEvt with
  | None => throw TypeError
  | Some d =>
      if panelElementContains env (target d) then ret tt
      else
        hide ;;
        if editorUiElementContains env (target d) then log CallFocus else ret tt
  end.

(** The [render] closure, lines 233-245.  The two nested tests are the
    source's [!isCollapsed || parentLink !== getPositionParentLink( position )],
    whose right operand is evaluated only when the left one is false. *)
Definition onRender (parentLink : NodeRef) : M unit :=
  match getFirstPosition (selection env) with
  | None => ret tt
  | Some position =>
      if negb (isCollapsed (selection env)) then _hidePanel false
      else
        current <- lift (getPositionParentLink (tree env) (Some position)) ;;
        if negb (sameLink parentLink current) then _hidePanel false
        else _attachPanelToElement (Some parentLink)
  end.

(** The [click] closure, lines 226-247. *)
Definition onClick : M unit :=
  parentLink <- lift (getPositionParentLink (tree env)
                        (getFirstPosition (selection env))) ;;
  match parentLink with
  | Some l =>
      if isCollapsed (selection env) then
        _attachPanelToElement None ;;
        listenTo LinkFeature ViewDocument "render" (OnRender l)
      else ret tt
  | None => ret tt
  end.

(** What each registered callback does when called with the DOM event
    [domEvt] ([None] when the emitter passes none). *)
Definition call (domEvt : option DomEvt) (cb : Callback) : M unit :=
  match cb with
  | OnLinkButtonExecute =>                                 (* lines 78-85 *)
      if negb (isFocused env) then ret tt
      else _attachPanelToElement None ;; log CallUrlInputSelect
  | OnUnlinkButtonExecute =>                               (* lines 114-116 *)
      _ <- execute "unlink" None ;; ret tt
  | OnExecuteLink =>                                       (* lines 179-182 *)
      _ <- execute "link" (Some (urlInputValue env)) ;;
      _hidePanel true
  | OnExecuteUnlink =>                                     (* lines 186-189 *)
      _ <- execute "unlink" None ;;
      _hidePanel true
  | OnExecuteCancel => _hidePanel true                     (* line 193 *)
  | OnChangeIsVisible => ret tt                            (* fired by the view only *)
  | ClosePanelOnClick => _closePanelOnClick domEvt
  | OnMouseup => onMouseup domEvt
  | OnClick => onClick
  | OnRender parentLink => onRender parentLink
  | OnCtrlL =>                                             (* lines 250-253 *)
      _attachPanelToElement None ;; log CallUrlInputSelect
  end.

(** ** What can happen to the feature *)

Inductive Event :=
| ToolbarLink            (* the link button's model fires execute *)
| ToolbarUnlink          (* the unlink button's model fires execute *)
| KeystrokeCtrlL
| DocumentClick          (* viewDocument fires click *)
| RenderCompleted        (* viewDocument fires render *)
| PanelSubmit            (* panelModel fires executeLink *)
| PanelUnlink            (* panelModel fires executeUnlink *)
| PanelCancel            (* panelModel fires executeCancel *)
| DomKeydown (domEvt : DomEvt)
| DomMouseup (domEvt : DomEvt).

Definition step (ev : Event) : M unit :=
  match ev with
  | ToolbarLink => fire (call None) LinkButtonModel "execute"
  | ToolbarUnlink => fire (call None) UnlinkButtonModel "execute"
  | KeystrokeCtrlL => fire (call None) Keystrokes "CTRL+L"
  | DocumentClick => fire (call None) ViewDocument "click"
  | RenderCompleted => fire (call None) ViewDocument "render"
  | PanelSubmit => fire (call None) PanelModel "executeLink"
  | PanelUnlink => fire (call None) PanelModel "executeUnlink"
  | PanelCancel => fire (call None) PanelModel "executeCancel"
  | DomKeydown d => fire (call (Some d)) DomDocument "keydown"
  | DomMouseup d => fire (call (Some d)) DomDocument "mouseup"
  end.

End Feature.

(** ** Construction: [init], lines 38-51 *)

(** [_createBalloonPanel], lines 161-259: the registrations it makes. *)
Definition _createBalloonPanel : M unit :=
  listenTo LinkFeature PanelModel "executeLink" OnExecuteLink ;;
  listenTo LinkFeature PanelModel "executeUnlink" OnExecuteUnlink ;;
  listenTo LinkFeature PanelModel "executeCancel" OnExecuteCancel ;;
  listenTo LinkFeature PanelViewModel "change:isVisible" OnChangeIsVisible ;;
  on ViewDocument "click" OnClick ;;
  on Keystrokes "CTRL+L" OnCtrlL.

(** [_createToolbarLinkButton], lines 59-89. *)
Definition _createToolbarLinkButton : M unit :=
  listenTo LinkFeature LinkButtonModel "execute" OnLinkButtonExecute.

(** [_createToolbarUnlinkButton], lines 97-120. *)
Definition _createToolbarUnlinkButton : M unit :=
  listenTo LinkFeature UnlinkButtonModel "execute" OnUnlinkButtonExecute.

Definition init : M unit :=
  _createBalloonPanel ;;
  _createToolbarLinkButton ;;
  _createToolbarUnlinkButton.

(** Before [init]: nothing registered; the panel starts hidden. *)
Definition blank : State :=
  {| isVisible := false; anchoredTo := None; listeners := [];
     nextSid := 0; trace := [] |}.

Definition initial : State := stateOf (init blank).

(** States the feature can be in after [init] and any events, each in
    its own environment. *)
Inductive Reachable (policy : DispatchPolicy) : State -> Prop :=
| Reachable_initial : Reachable policy initial
| Reachable_step (env : Env) (ev : Event) (s : State) :
    Reachable policy s -> Reachable policy (stateOf (step policy env ev s)).

(** ** Counting subscriptions *)

Definition count (p : Subscription -> bool) (s : State) : nat :=
  List.length (filter p (listeners s)).

Definition isEscape : Subscription -> bool :=
  subscribedTo DomDocument "keydown".

Definition isOutsideClick : Subscription -> bool :=
  subscribedTo DomDocument "mouseup".

Definition isRenderTracking : Subscription -> bool :=
  subscribedTo ViewDocument "render".

Definition escapeSubscriptions := count isEscape.
Definition outsideClickSubscriptions := count isOutsideClick.
Definition renderSubscriptions := count isRenderTracking.

(** ** Shape of the listener registry *)

(** The registrations made by [init]; they are never removed. *)
Definition static : list Subscription := listeners initial.

Definition escapeSub (k : nat) : Subscription :=
  {| sid := k; listener := Some BalloonPanelView; emitter := DomDocument;
     event := "keydown"; callback := ClosePanelOnClick |}.

Definition mouseupSub (m : nat) : Subscription :=
  {| sid := m; listener := Some BalloonPanelView; emitter := DomDocument;
     event := "mouseup"; callback := OnMouseup |}.

Definition renderSub (r : nat * NodeRef) : Subscription :=
  {| sid := fst r; listener := Some LinkFeature; emitter := ViewDocument;
     event := "render"; callback := OnRender (snd r) |}.

Definition dynamicSubs (k m : nat) (rs : list (nat * NodeRef)) : list Subscription :=
  escapeSub k :: mouseupSub m :: map renderSub rs.

(** Hidden: only the registrations of [init].  Shown: these, then one
    escape and one mouseup listener, then the render listeners of the
    clicks made since the panel was shown. *)
Inductive WF (s : State) : Prop :=
| WF_hidden :
    isVisible s = false -> listeners s = static -> WF s
| WF_shown (k m : nat) (rs : list (nat * NodeRef)) :
    isVisible s = true -> listeners s = static ++ dynamicSubs k m rs -> WF s.

(** The links whose render listeners are registered, oldest first. *)
Definition tracked (s : State) : list NodeRef :=
  flat_map (fun sub => match callback sub with
                       | OnRender l => [l]
                       | _ => []
                       end)
           (filter isRenderTracking (listeners s)).

(** The state [hide] leaves, and the state [attachTo] leaves. *)
Definition hidden (s : State) : State :=
  {| isVisible := false; anchoredTo := anchoredTo s; listeners := static;
     nextSid := nextSid s; trace := trace s ++ [CallHide] |}.

Definition shown (a b : DomTarget) (s : State) : State :=
  {| isVisible := true; anchoredTo := Some (a, b);
     listeners := if isVisible s then listeners s
                  else static ++ [escapeSub (nextSid s); mouseupSub (S (nextSid s))];
     nextSid := if isVisible s then nextSid s else S (S (nextSid s));
     trace := trace s ++ [CallAttachTo a b] |}.

Definition logged (c : Call) (s : State) : State :=
  {| isVisible := isVisible s; anchoredTo := anchoredTo s;
     listeners := listeners s; nextSid := nextSid s;
     trace := trace s ++ [c] |}.

(** The one registration on the panel view's model. *)
Definition changeSub : Subscription :=
  {| sid := 3; listener := Some LinkFeature; emitter := PanelViewModel;
     event := "change:isVisible"; callback := OnChangeIsVisible |}.

(** Where [_attachPanelToElement] anchors the panel: the explicit link,
    else the link around the selection's first position, else the
    selection's first range; a TypeError when the position to look up
    is null. *)
Definition anchorFor (env : Env) (parentLink : option NodeRef) : Error + DomTarget :=
  match parentLink with
  | Some l => inr (DomElementOf (Some l))
  | None =>
      match getPositionParentLink (tree env) (getFirstPosition (selection env)) with
      | inl e => inl e
      | inr (Some l) => inr (DomElementOf (Some l))
      | inr None => inr (DomRangeOf (getFirstRange (selection env)))
      end
  end.

(** The callback [init] registered for an event, for the events whose
    listeners never change. *)
Definition handlerOf (ev : Event) : option Callback :=
  match ev with
  | ToolbarLink => Some OnLinkButtonExecute
  | ToolbarUnlink => Some OnUnlinkButtonExecute
  | KeystrokeCtrlL => Some OnCtrlL
  | DocumentClick => Some OnClick
  | PanelSubmit => Some OnExecuteLink
  | PanelUnlink => Some OnExecuteUnlink
  | PanelCancel => Some OnExecuteCancel
  | RenderCompleted | DomKeydown _ | DomMouseup _ => None
  end.

(** The link around the selection's first position. *)
Definition linkAtSelection (env : Env) : Error + option NodeRef :=
  getPositionParentLink (tree env) (getFirstPosition (selection env)).

(** The selection is a caret inside link [A]. *)
Definition caretInside (A : NodeRef) (env : Env) : Prop :=
  isCollapsed (selection env) = true /\ linkAtSelection env = inr (Some A).

(** The selection has a first position and is no longer a caret inside
    link [A]: it is a range, or inside another link, or inside none. *)
Definition caretLeft (A : NodeRef) (env : Env) : Prop :=
  getFirstPosition (selection env) <> None /\
  (isCollapsed (selection env) = false \/ linkAtSelection env <> inr (Some A)).

(** A document click that shows the panel: a caret inside some link. *)
Definition clickShows (env : Env) : bool :=
  match linkAtSelection env with
  | inr (Some _) => isCollapsed (selection env)
  | _ => false
  end.

(** Render notifications one after the other, each in its environment. *)
Definition renderAll (policy : DispatchPolicy) (renders : list Env) (s : State) : State :=
  fold_left (fun st e => stateOf (step policy e RenderCompleted st)) renders s.

(** The state [n] render listeners leave when each re-attaches a shown
    panel to the same target. *)
Definition reattached (a b : DomTarget) (n : nat) (s : State) : State :=
  {| isVisible := true;
     anchoredTo := match n with
                   | 0 => anchoredTo s
                   | S _ => Some (a, b)
                   end;
     listeners := listeners s; nextSid := nextSid s;
     trace := trace s ++ repeat (CallAttachTo a b) n |}.

(** The panel is shown and render tracking is in place, every render
    listener capturing link [A]. *)
Definition Tracking (A : NodeRef) (s : State) : Prop :=
  exists (k m : nat) (rs : list (nat * NodeRef)),
    isVisible s = true
    /\ listeners s = static ++ dynamicSubs k m rs
    /\ rs <> []
    /\ (forall r, In r rs -> snd r = A).

Definition closeSubscriptions (s : State) : nat :=
  escapeSubscriptions s + outsideClickSubscriptions s.

(** ** A small document to run the feature on *)

Module Sample.

(** root 1 > paragraph 2 > link 3 > text 4, link 5 > text 6, text 7. *)
Definition sampleTree : ViewTree :=
  {| getAncestors := fun n => match n with
                              | 4 => [1; 2; 3]
                              | 6 => [1; 2; 5]
                              | 7 => [1; 2]
                              | 3 | 5 => [1; 2]
                              | 2 => [1]
                              | _ => []
                              end;
     instanceofLinkElement := fun n => Nat.eqb n 3 || Nat.eqb n 5 |}.

Definition caretAt (textNode : NodeRef) : Selection :=
  let p := {| parent := textNode; offset := 1 |} in
  {| getFirstPosition := Some p;
     getFirstRange := Some {| rangeStart := p; rangeEnd := p |};
     isCollapsed := true;
     editableElement := Some 1 |}.

Definition rangeOver (textNode : NodeRef) : Selection :=
  {| getFirstPosition := Some {| parent := textNode; offset := 0 |};
     getFirstRange := Some {| rangeStart := {| parent := textNode; offset := 0 |};
                              rangeEnd := {| parent := textNode; offset := 3 |} |};
     isCollapsed := false;
     editableElement := Some 1 |}.

(** A selection without any range. *)
Definition noSelection : Selection :=
  {| getFirstPosition := None; getFirstRange := None;
     isCollapsed := false; editableElement := None |}.

(** DOM node 100 is inside the panel, nodes below 50 are inside the
    editor's UI element; the mutation engine fails every command. *)
Definition world (sel : Selection) : Env :=
  {| tree := sampleTree;
     selection := sel;
     isFocused := true;
     urlInputValue := "http://example.com";
     panelElementContains := fun n => Nat.eqb n 100;
     editorUiElementContains := fun n => Nat.ltb n 50;
     executeOutcome := fun _ _ => Failed |}.

(** The panel shown by a click inside link 3. *)
Definition clickedInLink (policy : DispatchPolicy) : State :=
  stateOf (step policy (world (caretAt 4)) DocumentClick initial).

(** The panel shown by the toolbar button over a selected range. *)
Definition shownOverRange (policy : DispatchPolicy) : State :=
  stateOf (step policy (world (rangeOver 7)) ToolbarLink initial).

End Sample.

(** ** Reading the trace *)

Definition isExecuteCall (c : Call) : bool :=
  match c with
  | CallExecute _ _ _ => true
  | _ => false
  end.

(** Calls that only place or hide the panel. *)
Definition isPositioning (c : Call) : bool :=
  match c with
  | CallHide | CallAttachTo _ _ => true
  | _ => false
  end.

(** How many times [editor.execute] was called so far. *)
Definition executions (s : State) : nat :=
  List.length (filter isExecuteCall (trace s)).

(** The events whose handler calls [editor.execute]. *)
Definition mutates (ev : Event) : bool :=
  match ev with
  | ToolbarUnlink | PanelSubmit | PanelUnlink => true
  | _ => false
  end.

(** The events that read the selection's first position without a
    null check. *)
Definition needsPosition (env : Env) (ev : Event) : bool :=
  match ev with
  | ToolbarLink => isFocused env
  | KeystrokeCtrlL | DocumentClick => true
  | _ => false
  end.

(** The sample world with the editing view out of focus. *)
Definition unfocusedWorld (sel : Selection) : Env :=
  {| tree := Sample.sampleTree;
     selection := sel;
     isFocused := false;
     urlInputValue := "";
     panelElementContains := fun n => Nat.eqb n 100;
     editorUiElementContains := fun n => Nat.ltb n 50;
     executeOutcome := fun _ _ => Applied |}.

(** The sample world with a command layer that throws. *)
Definition throwingWorld (sel : Selection) : Env :=
  {| tree := Sample.sampleTree;
     selection := sel;
     isFocused := true;
     urlInputValue := "http://example.com";
     panelElementContains := fun n => Nat.eqb n 100;
     editorUiElementContains := fun n => Nat.ltb n 50;
     executeOutcome := fun _ _ => Thrown |}.

(** The events whose call of [editor.execute] throws in [env]. *)
Definition executeThrows (env : Env) (ev : Event) : bool :=
  let thrown o := match o with
                  | Thrown => true
                  | _ => false
                  end in
  match ev with
  | PanelSubmit => thrown (executeOutcome env "link" (Some (urlInputValue env)))
  | ToolbarUnlink | PanelUnlink => thrown (executeOutcome env "unlink" None)
  | _ => false
  end.

(** A text node 9 inside link 5 inside link 3: two link elements in one
    ancestor chain. *)
Definition nestedTree : ViewTree :=
  {| getAncestors := fun n => match n with
                              | 9 => [1; 3; 5]
                              | _ => []
                              end;
     instanceofLinkElement := fun n => Nat.eqb n 3 || Nat.eqb n 5 |}.

(** * Proofs *)

Lemma static_change :
  filter (subscribedTo PanelViewModel "change:isVisible") static = [changeSub].
Proof. reflexivity. Qed.

Lemma static_panelViewModel :
  filter (fun sub => Emitter_eqb PanelViewModel (emitter sub)) static = [changeSub].
Proof. reflexivity. Qed.

Lemma static_In_change : In changeSub static.
Proof. vm_compute. tauto. Qed.

Lemma static_stopListening (l : Listener) :
  filter (fun sub => negb (listenedBy l (match l with
                                         | LinkFeature => ViewDocument
                                         | BalloonPanelView => DomDocument
                                         end) sub)) static = static.
Proof. destruct l; reflexivity. Qed.

Lemma static_no_dom (ev : string) :
  filter (subscribedTo DomDocument ev) static = [].
Proof. reflexivity. Qed.

Lemma static_no_render :
  filter (subscribedTo ViewDocument "render") static = [].
Proof. reflexivity. Qed.

Opaque static.

Lemma filter_renderSubs_none (f : Subscription -> bool) (rs : list (nat * NodeRef)) :
  (forall r, f (renderSub r) = false) -> filter f (map renderSub rs) = [].
Proof.
  intros Hf. induction rs as [|r rs IH]; simpl; [reflexivity|].
  now rewrite Hf.
Qed.

Lemma filter_renderSubs_all (f : Subscription -> bool) (rs : list (nat * NodeRef)) :
  (forall r, f (renderSub r) = true) -> filter f (map renderSub rs) = map renderSub rs.
Proof.
  intros Hf. induction rs as [|r rs IH]; simpl; [reflexivity|].
  now rewrite Hf, IH.
Qed.

Lemma filter_dynamicSubs_render k m rs :
  filter isRenderTracking (dynamicSubs k m rs) = map renderSub rs.
Proof.
  unfold dynamicSubs. simpl. now apply filter_renderSubs_all.
Qed.

(** In every well-formed state the panel view's model has exactly one
    callback, the [change:isVisible] handler. *)
Lemma WF_static (s : State) :
  WF s ->
  filter (fun sub => Emitter_eqb PanelViewModel (emitter sub)) (listeners s) = [changeSub].
Proof.
  intros [Hv Hl | k m rs Hv Hl]; rewrite Hl.
  - apply static_panelViewModel.
  - rewrite filter_app, static_panelViewModel. unfold dynamicSubs. simpl.
    now rewrite filter_renderSubs_none.
Qed.

Section Invariant.

Variable policy : DispatchPolicy.

Lemma delivered_In (sub : Subscription) (s : State) :
  In sub (listeners s) -> delivered policy sub s = true.
Proof.
  intros Hin. unfold delivered. destruct policy; [reflexivity|].
  apply existsb_exists. exists sub. split; [assumption|apply Nat.eqb_refl].
Qed.

Lemma setIsVisible_same (v : bool) (s : State) :
  isVisible s = v -> setIsVisible policy v s = Ok tt s.
Proof.
  intros <-. unfold setIsVisible. now rewrite Bool.eqb_reflx.
Qed.

Lemma hide_spec (s : State) :
  WF s -> hide policy s = Ok tt (hidden s).
Proof.
  intros [Hv Hl | k m rs Hv Hl]; destruct s as [v a l n t]; simpl in *; subst.
  - reflexivity.
  - unfold hide, bind, log, setIsVisible, fire; simpl.
    rewrite filter_app, static_change. unfold dynamicSubs. simpl.
    rewrite filter_renderSubs_none by reflexivity. simpl.
    rewrite delivered_In
      by (simpl; apply in_or_app; left; exact static_In_change).
    unfold bind, onChangeIsVisible, stopListening, hidden; simpl.
    rewrite !filter_app, (static_stopListening BalloonPanelView). simpl.
    rewrite filter_renderSubs_all by reflexivity.
    rewrite (static_stopListening LinkFeature).
    rewrite filter_renderSubs_none by reflexivity.
    now rewrite app_nil_r.
Qed.

Lemma attachTo_spec (a b : DomTarget) (s : State) :
  WF s -> attachTo policy a b s = Ok tt (shown a b s).
Proof.
  intros [Hv Hl | k m rs Hv Hl]; destruct s as [v a0 l n t]; simpl in *; subst.
  - unfold attachTo, bind, log, setIsVisible, fire; simpl.
    rewrite static_change. simpl.
    rewrite delivered_In by (simpl; exact static_In_change).
    unfold shown, bind, listenTo, register, ret; simpl.
    now rewrite <- app_assoc.
  - reflexivity.
Qed.

Lemma WF_hidden_state (s : State) : WF (hidden s).
Proof. now apply WF_hidden. Qed.

Lemma WF_shown_state (a b : DomTarget) (s : State) : WF s -> WF (shown a b s).
Proof.
  intros [Hv Hl | k m rs Hv Hl].
  - apply (WF_shown _ (nextSid s) (S (nextSid s)) []); unfold shown; simpl;
      [reflexivity | now rewrite Hv].
  - apply (WF_shown _ k m rs); unfold shown; simpl;
      [reflexivity | now rewrite Hv].
Qed.

Lemma WF_logged (c : Call) (s : State) : WF s -> WF (logged c s).
Proof.
  intros [Hv Hl | k m rs Hv Hl].
  - now apply WF_hidden.
  - now apply (WF_shown _ k m rs).
Qed.

Lemma WF_listenTo_render (l : NodeRef) (s : State) :
  WF s -> isVisible s = true ->
  WF (stateOf (listenTo LinkFeature ViewDocument "render" (OnRender l) s)).
Proof.
  intros [Hv Hl | k m rs Hv Hl] Hvis; [congruence|].
  apply (WF_shown _ k m (rs ++ [(nextSid s, l)])); simpl; [assumption|].
  rewrite Hl. unfold dynamicSubs. rewrite map_app. simpl.
  now rewrite <- app_assoc.
Qed.

Variable env : Env.

Lemma _hidePanel_spec (focusDocument : bool) (s : State) :
  WF s ->
  _hidePanel policy focusDocument s
  = Ok tt (if focusDocument then logged CallFocus (hidden s) else hidden s).
Proof.
  intros Hwf. unfold _hidePanel, bind. rewrite (hide_spec s Hwf).
  now destruct focusDocument.
Qed.

Lemma _attachPanelToElement_spec (parentLink : option NodeRef) (s : State) :
  WF s ->
  _attachPanelToElement policy env parentLink s
  = match anchorFor env parentLink with
    | inl e => Throw e s
    | inr a => Ok tt (shown a (DomElementOf (editableElement (selection env))) s)
    end.
Proof.
  intros Hwf. unfold _attachPanelToElement, anchorFor, bind.
  destruct parentLink as [l|]; simpl.
  - now apply attachTo_spec.
  - destruct (getPositionParentLink (tree env) (getFirstPosition (selection env)))
      as [e | [l|]]; simpl; [reflexivity | |]; now apply attachTo_spec.
Qed.

Lemma _attachPanelToElement_WF (parentLink : option NodeRef) (s : State) :
  WF s -> WF (stateOf (_attachPanelToElement policy env parentLink s)).
Proof.
  intros Hwf. rewrite _attachPanelToElement_spec by assumption.
  destruct (anchorFor env parentLink) as [e|a]; [assumption|].
  now apply (WF_shown_state a _ s).
Qed.

Lemma _hidePanel_WF (focusDocument : bool) (s : State) :
  WF s -> WF (stateOf (_hidePanel policy focusDocument s)).
Proof.
  intros Hwf. rewrite _hidePanel_spec by assumption.
  destruct focusDocument.
  - apply (WF_logged CallFocus (hidden s)), WF_hidden_state.
  - apply WF_hidden_state.
Qed.

Lemma attachThenSelect_WF (s : State) :
  WF s ->
  WF (stateOf ((_attachPanelToElement policy env None ;; log CallUrlInputSelect) s)).
Proof.
  intros Hwf. unfold bind.
  rewrite _attachPanelToElement_spec by assumption.
  destruct (anchorFor env None) as [e|a]; [assumption|].
  apply (WF_logged CallUrlInputSelect (shown a _ s)). now apply WF_shown_state.
Qed.

Lemma execute_returns (command : string) (param : option string) (s : State) :
  executeOutcome env command param <> Thrown ->
  execute env command param s
  = Ok (executeOutcome env command param)
       (logged (CallExecute command param (executeOutcome env command param)) s).
Proof.
  intros Hret. unfold execute, bind, log. simpl.
  now destruct (executeOutcome env command param).
Qed.

Lemma execute_throws (command : string) (param : option string) (s : State) :
  executeOutcome env command param = Thrown ->
  execute env command param s
  = Throw CommandError (logged (CallExecute command param Thrown) s).
Proof.
  intros Hthrown. unfold execute, bind, log. simpl. now rewrite Hthrown.
Qed.

Lemma execute_state (command : string) (param : option string) (s : State) :
  stateOf (execute env command param s)
  = logged (CallExecute command param (executeOutcome env command param)) s.
Proof.
  unfold execute, bind, log. simpl.
  now destruct (executeOutcome env command param).
Qed.

Lemma executeThenHide_WF (command : string) (param : option string) (s : State) :
  WF s ->
  WF (stateOf ((_ <- execute env command param ;; _hidePanel policy true) s)).
Proof.
  intros Hwf. unfold bind.
  pose proof (execute_state command param s) as Hstate.
  destruct (execute env command param s) as [o s' | e s']; simpl in Hstate; subst s'.
  - apply _hidePanel_WF. now apply WF_logged.
  - now apply WF_logged.
Qed.

Lemma onMouseup_WF (domEvt : option DomEvt) (s : State) :
  WF s -> WF (stateOf (onMouseup policy env domEvt s)).
Proof.
  intros Hwf. unfold onMouseup.
  destruct domEvt as [d|]; [|assumption].
  destruct (panelElementContains env (target d)); [assumption|].
  unfold bind. rewrite hide_spec by assumption.
  destruct (editorUiElementContains env (target d)).
  - apply (WF_logged CallFocus (hidden s)), WF_hidden_state.
  - apply WF_hidden_state.
Qed.

Lemma onRender_WF (parentLink : NodeRef) (s : State) :
  WF s -> WF (stateOf (onRender policy env parentLink s)).
Proof.
  intros Hwf. unfold onRender.
  destruct (getFirstPosition (selection env)) as [position|]; [|assumption].
  destruct (isCollapsed (selection env)); simpl.
  - unfold bind; simpl.
    destruct (sameLink parentLink _); simpl.
    + now apply _attachPanelToElement_WF.
    + now apply _hidePanel_WF.
  - now apply _hidePanel_WF.
Qed.

Lemma onClick_WF (s : State) :
  WF s -> WF (stateOf (onClick policy env s)).
Proof.
  intros Hwf. unfold onClick, bind.
  destruct (getPositionParentLink (tree env) (getFirstPosition (selection env)))
    as [e | [l|]] eqn:Hlink; simpl; try assumption.
  destruct (isCollapsed (selection env)); [|assumption].
  rewrite _attachPanelToElement_spec by assumption.
  unfold anchorFor. rewrite Hlink.
  apply (WF_listenTo_render l (shown (DomElementOf (Some l)) _ s));
    [now apply WF_shown_state | reflexivity].
Qed.

(** Every callback keeps the registry well formed, whether it returns
    or throws. *)
Lemma call_WF (domEvt : option DomEvt) (cb : Callback) (s : State) :
  WF s -> WF (stateOf (call policy env domEvt cb s)).
Proof.
  intros Hwf. destruct cb; simpl.
  - destruct (isFocused env); simpl; [now apply attachThenSelect_WF | assumption].
  - unfold bind.
    pose proof (execute_state "unlink" None s) as Hstate.
    destruct (execute env "unlink" None s) as [o s' | e s']; simpl in Hstate;
      subst s'; now apply WF_logged.
  - now apply executeThenHide_WF.
  - now apply executeThenHide_WF.
  - now apply _hidePanel_WF.
  - assumption.
  - unfold _closePanelOnClick. destruct domEvt as [d|]; [|assumption].
    destruct (Nat.eqb (keyCode d) 27); [now apply _hidePanel_WF | assumption].
  - now apply onMouseup_WF.
  - now apply onClick_WF.
  - now apply onRender_WF.
  - now apply attachThenSelect_WF.
Qed.

Lemma dispatch_WF (domEvt : option DomEvt) (subs : list Subscription) (s : State) :
  WF s -> WF (stateOf (dispatch policy (call policy env domEvt) subs s)).
Proof.
  revert s. induction subs as [|sub rest IH]; intros s Hwf; simpl.
  - assumption.
  - destruct (delivered policy sub s); [|now apply IH].
    unfold bind.
    pose proof (call_WF domEvt (callback sub) s Hwf) as Hcall.
    destruct (call policy env domEvt (callback sub) s) as [[] s' | e s'];
      simpl in *; [now apply IH | assumption].
Qed.

Lemma step_WF (ev : Event) (s : State) :
  WF s -> WF (stateOf (step policy env ev s)).
Proof.
  intros Hwf. destruct ev; simpl; unfold fire; now apply dispatch_WF.
Qed.

End Invariant.

Lemma WF_initial : WF initial.
Proof. now apply WF_hidden. Qed.

Lemma Reachable_WF (policy : DispatchPolicy) (s : State) :
  Reachable policy s -> WF s.
Proof.
  induction 1 as [|env ev s _ IH]; [exact WF_initial | now apply step_WF].
Qed.

Example clickedInLink_state :
  let s := Sample.clickedInLink Live in
  isVisible s = true /\ tracked s = [3] /\ closeSubscriptions s = 2 /\
  trace s = [CallAttachTo (DomElementOf (Some 3)) (DomElementOf (Some 1))].
Proof. vm_compute. auto. Qed.

Example shownOverRange_state :
  let s := Sample.shownOverRange Snapshot in
  isVisible s = true /\ tracked s = [] /\
  anchoredTo s = Some (DomRangeOf (getFirstRange (Sample.rangeOver 7)),
                       DomElementOf (Some 1)).
Proof. vm_compute. auto. Qed.

Section Steps.

Variable policy : DispatchPolicy.
Variable env : Env.

Lemma bind_ret_tt (m : M unit) (s : State) : (m ;; ret tt) s = m s.
Proof. unfold bind, ret. now destruct (m s) as [[] s' | e s']. Qed.

Lemma fire_single (c : Callback -> M unit) (em : Emitter) (ev : string)
      (sub : Subscription) (s : State) :
  filter (subscribedTo em ev) (listeners s) = [sub] ->
  fire policy c em ev s = c (callback sub) s.
Proof.
  intros Hf. unfold fire. rewrite Hf. simpl.
  rewrite delivered_In.
  - apply bind_ret_tt.
  - apply (filter_In (subscribedTo em ev)). rewrite Hf. now left.
Qed.

Lemma fire_none (c : Callback -> M unit) (em : Emitter) (ev : string) (s : State) :
  filter (subscribedTo em ev) (listeners s) = [] ->
  fire policy c em ev s = Ok tt s.
Proof. intros Hf. unfold fire. now rewrite Hf. Qed.

(** Events other than DOM events and render reach the callbacks of
    [init] only. *)
Lemma WF_filter_static (em : Emitter) (ev : string) (s : State) :
  WF s ->
  subscribedTo em ev (escapeSub 0) = false ->
  subscribedTo em ev (mouseupSub 0) = false ->
  subscribedTo em ev (renderSub (0, 0)) = false ->
  filter (subscribedTo em ev) (listeners s) = filter (subscribedTo em ev) static.
Proof.
  intros [Hv Hl | k m rs Hv Hl] He Hm Hr; rewrite Hl; [reflexivity|].
  rewrite filter_app. unfold dynamicSubs. simpl.
  change (subscribedTo em ev (escapeSub k)) with (subscribedTo em ev (escapeSub 0)).
  change (subscribedTo em ev (mouseupSub m)) with (subscribedTo em ev (mouseupSub 0)).
  rewrite He, Hm, filter_renderSubs_none, app_nil_r; [reflexivity|].
  intros r. exact Hr.
Qed.

Transparent static.

Lemma step_static (ev : Event) (cb : Callback) (s : State) :
  WF s -> handlerOf ev = Some cb ->
  step policy env ev s = call policy env None cb s.
Proof.
  intros Hwf Hcb.
  destruct ev; simpl in Hcb; inversion Hcb; subst cb; unfold step;
    match goal with
    | |- fire _ _ ?em ?ev _ = call _ _ _ ?cb _ =>
        apply (fire_single _ em ev
                 (hd changeSub (filter (subscribedTo em ev) static)));
        rewrite WF_filter_static by (assumption || reflexivity);
        reflexivity
    end.
Qed.

Opaque static.

Lemma filter_escape_shown (k m : nat) (rs : list (nat * NodeRef)) :
  filter (subscribedTo DomDocument "keydown") (static ++ dynamicSubs k m rs)
  = [escapeSub k].
Proof.
  rewrite filter_app, static_no_dom. unfold dynamicSubs. simpl.
  now rewrite filter_renderSubs_none.
Qed.

Lemma filter_mouseup_shown (k m : nat) (rs : list (nat * NodeRef)) :
  filter (subscribedTo DomDocument "mouseup") (static ++ dynamicSubs k m rs)
  = [mouseupSub m].
Proof.
  rewrite filter_app, static_no_dom. unfold dynamicSubs. simpl.
  now rewrite filter_renderSubs_none.
Qed.

Lemma filter_render_shown (k m : nat) (rs : list (nat * NodeRef)) :
  filter (subscribedTo ViewDocument "render") (static ++ dynamicSubs k m rs)
  = map renderSub rs.
Proof.
  rewrite filter_app, static_no_render.
  apply (filter_dynamicSubs_render k m rs).
Qed.

Lemma step_mouseup_shown (d : DomEvt) (s : State) :
  WF s -> isVisible s = true ->
  step policy env (DomMouseup d) s = onMouseup policy env (Some d) s.
Proof.
  intros [Hv Hl | k m rs Hv Hl] Hvis; [congruence|].
  apply (fire_single (call policy env (Some d)) DomDocument "mouseup" (mouseupSub m)).
  rewrite Hl. apply filter_mouseup_shown.
Qed.

Lemma step_keydown_shown (d : DomEvt) (s : State) :
  WF s -> isVisible s = true ->
  step policy env (DomKeydown d) s = _closePanelOnClick policy (Some d) s.
Proof.
  intros [Hv Hl | k m rs Hv Hl] Hvis; [congruence|].
  apply (fire_single (call policy env (Some d)) DomDocument "keydown" (escapeSub k)).
  rewrite Hl. apply filter_escape_shown.
Qed.

Lemma tracked_hidden (s : State) :
  listeners s = static -> tracked s = [].
Proof.
  intros Hl. unfold tracked, isRenderTracking. now rewrite Hl, static_no_render.
Qed.

Lemma tracked_shown (k m : nat) (rs : list (nat * NodeRef)) (s : State) :
  listeners s = static ++ dynamicSubs k m rs -> tracked s = map snd rs.
Proof.
  intros Hl. unfold tracked, isRenderTracking. rewrite Hl, filter_render_shown.
  clear Hl. induction rs as [|r rs IH]; simpl; [reflexivity | now rewrite IH].
Qed.

End Steps.

(** Turns the step of an event wired by [init] into the call of its
    callback, in a well-formed state. *)
Ltac static_step ev cb :=
  rewrite (step_static _ _ ev cb) by (assumption || reflexivity).

(** ** The annotation locator *)

Lemma find_first_link (t : ViewTree) (before after : list NodeRef) (link : NodeRef) :
  instanceofLinkElement t link = true ->
  (forall n, In n before -> instanceofLinkElement t n = false) ->
  find (instanceofLinkElement t) (before ++ link :: after) = Some link.
Proof.
  intros Hlink Hbefore. induction before as [|n before IH]; simpl.
  - now rewrite Hlink.
  - rewrite (Hbefore n) by now left.
    apply IH. intros n' Hn'. apply Hbefore. now right.
Qed.

Lemma find_no_link (t : ViewTree) (chain : list NodeRef) :
  (forall n, In n chain -> instanceofLinkElement t n = false) ->
  find (instanceofLinkElement t) chain = None.
Proof.
  intros Hnone. induction chain as [|n chain IH]; simpl; [reflexivity|].
  rewrite (Hnone n) by now left.
  apply IH. intros n' Hn'. apply Hnone. now right.
Qed.

(** C5 -- Locator correctness.  For a position whose parent's ancestor
    chain holds exactly one link element, at whatever depth (any number
    of other nodes before it and after it), [getPositionParentLink]
    returns that element; for a chain without link element it returns
    none.  The locator is a function of the tree and the position: it
    reads no state and changes none. *)
Theorem locator_correct (t : ViewTree) (p : Position) :
  (forall (before after : list NodeRef) (link : NodeRef),
      getAncestors t (parent p) = before ++ link :: after ->
      instanceofLinkElement t link = true ->
      (forall n, In n before -> instanceofLinkElement t n = false) ->
      (forall n, In n after -> instanceofLinkElement t n = false) ->
      getPositionParentLink t (Some p) = inr (Some link))
  /\
  ((forall n, In n (getAncestors t (parent p)) -> instanceofLinkElement t n = false) ->
   getPositionParentLink t (Some p) = inr None).
Proof.
  split.
  - intros before after link Hchain Hlink Hbefore _. simpl.
    rewrite Hchain. f_equal. now apply find_first_link.
  - intros Hnone. simpl. f_equal. now apply find_no_link.
Qed.

Lemma locator_correct_witness :
  getPositionParentLink Sample.sampleTree (Some {| parent := 4; offset := 1 |})
  = inr (Some 3)
  /\
  getPositionParentLink Sample.sampleTree (Some {| parent := 7; offset := 0 |})
  = inr None.
Proof.
  split.
  - apply (proj1 (locator_correct Sample.sampleTree {| parent := 4; offset := 1 |})
             [1; 2] [] 3).
    + reflexivity.
    + reflexivity.
    + intros n [<- | [<- | []]]; reflexivity.
    + intros n [].
  - apply (proj2 (locator_correct Sample.sampleTree {| parent := 7; offset := 0 |})).
    intros n [<- | [<- | []]]; reflexivity.
Defined.

(** C4 -- Null position, as the source has it.  The locator is total
    over positions: for every position it returns the enclosing link or
    none and never fails.  A null position is outside its parameter type
    and makes it fail with a TypeError instead of returning none. *)
Theorem locator_total_on_positions (t : ViewTree) :
  (forall p : Position, exists r, getPositionParentLink t (Some p) = inr r)
  /\ getPositionParentLink t None = inl TypeError.
Proof.
  split; [|reflexivity].
  intros p. now exists (find (instanceofLinkElement t) (getAncestors t (parent p))).
Qed.

(** C4, as stated, fails: on a null position the locator does not return
    none. *)
Lemma locator_null_fails :
  getPositionParentLink Sample.sampleTree None = inl TypeError
  /\ getPositionParentLink Sample.sampleTree None <> inr None.
Proof. split; [reflexivity | discriminate]. Qed.

(** ** Attaching the panel *)

(** C6 -- Anchoring precedence, as the source has it.  An explicit link
    anchors the panel to that link's element; otherwise the link around
    the selection's first position does; otherwise the panel is anchored
    to the selection's first range.  In each case the panel is shown.
    With no explicit link and no first position the request fails with a
    TypeError before anything is attached: the state is untouched, and
    the failure is not silent. *)
Theorem attach_anchoring (policy : DispatchPolicy) (env : Env) (s : State) :
  Reachable policy s ->
  let limiter := DomElementOf (editableElement (selection env)) in
  (forall l, _attachPanelToElement policy env (Some l) s
             = Ok tt (shown (DomElementOf (Some l)) limiter s))
  /\ (forall l, linkAtSelection env = inr (Some l) ->
                _attachPanelToElement policy env None s
                = Ok tt (shown (DomElementOf (Some l)) limiter s))
  /\ (linkAtSelection env = inr None ->
      _attachPanelToElement policy env None s
      = Ok tt (shown (DomRangeOf (getFirstRange (selection env))) limiter s))
  /\ (getFirstPosition (selection env) = None ->
      _attachPanelToElement policy env None s = Throw TypeError s).
Proof.
  intros Hreach limiter. apply Reachable_WF in Hreach.
  repeat split.
  - intros l. now rewrite _attachPanelToElement_spec.
  - intros l Hl. rewrite _attachPanelToElement_spec by assumption.
    unfold anchorFor. unfold linkAtSelection in Hl. now rewrite Hl.
  - intros Hl. rewrite _attachPanelToElement_spec by assumption.
    unfold anchorFor. unfold linkAtSelection in Hl. now rewrite Hl.
  - intros Hnull. rewrite _attachPanelToElement_spec by assumption.
    unfold anchorFor. now rewrite Hnull.
Qed.

Lemma attach_anchoring_witness :
  _attachPanelToElement Live (Sample.world (Sample.caretAt 6)) (Some 3)
    (Sample.clickedInLink Live)
  = Ok tt (shown (DomElementOf (Some 3)) (DomElementOf (Some 1))
             (Sample.clickedInLink Live))
  /\
  _attachPanelToElement Live (Sample.world (Sample.caretAt 6)) None
    (Sample.clickedInLink Live)
  = Ok tt (shown (DomElementOf (Some 5)) (DomElementOf (Some 1))
             (Sample.clickedInLink Live)).
Proof.
  assert (R : Reachable Live (Sample.clickedInLink Live))
    by apply Reachable_step, Reachable_initial.
  split.
  - apply (proj1 (attach_anchoring Live (Sample.world (Sample.caretAt 6)) _ R)).
  - apply (proj1 (proj2 (attach_anchoring Live (Sample.world (Sample.caretAt 6)) _ R))).
    reflexivity.
Defined.

(** C6, as stated, fails: with no explicit link and a selection without
    range the request is not a silent no-op, it throws. *)
Lemma attach_without_target_throws :
  _attachPanelToElement Live (Sample.world Sample.noSelection) None initial
  = Throw TypeError initial
  /\ _attachPanelToElement Live (Sample.world Sample.noSelection) None initial
     <> Ok tt initial.
Proof. split; [reflexivity | discriminate]. Qed.

(** ** Subscriptions *)

Lemma count_hidden (s : State) :
  listeners s = static ->
  escapeSubscriptions s = 0 /\ outsideClickSubscriptions s = 0.
Proof.
  intros Hl.
  unfold escapeSubscriptions, outsideClickSubscriptions, count, isEscape, isOutsideClick.
  now rewrite Hl, !static_no_dom.
Qed.

Lemma count_shown (k m : nat) (rs : list (nat * NodeRef)) (s : State) :
  listeners s = static ++ dynamicSubs k m rs ->
  escapeSubscriptions s = 1 /\ outsideClickSubscriptions s = 1
  /\ renderSubscriptions s = List.length rs.
Proof.
  intros Hl.
  unfold escapeSubscriptions, outsideClickSubscriptions, renderSubscriptions,
    count, isEscape, isOutsideClick, isRenderTracking.
  rewrite Hl, filter_escape_shown, filter_mouseup_shown, filter_render_shown.
  now rewrite length_map.
Qed.

(** C1 -- Subscription balance.  In every reachable state: when the
    panel is hidden no close-on-escape and no close-on-outside-click
    subscription is active; when it is shown there is exactly one escape
    keydown subscription and exactly one outside mouseup subscription,
    two in all. *)
Theorem subscription_balance (policy : DispatchPolicy) (s : State) :
  Reachable policy s ->
  (isVisible s = false ->
   escapeSubscriptions s = 0 /\ outsideClickSubscriptions s = 0
   /\ closeSubscriptions s = 0)
  /\
  (isVisible s = true ->
   escapeSubscriptions s = 1 /\ outsideClickSubscriptions s = 1
   /\ closeSubscriptions s = 2).
Proof.
  intros Hreach. unfold closeSubscriptions.
  destruct (Reachable_WF policy s Hreach) as [Hv Hl | k m rs Hv Hl].
  - split; [|congruence]. intros _.
    destruct (count_hidden s Hl) as [-> ->]. auto.
  - split; [congruence|]. intros _.
    destruct (count_shown k m rs s Hl) as (-> & -> & _). auto.
Qed.

Lemma subscription_balance_witness :
  closeSubscriptions (Sample.clickedInLink Live) = 2
  /\
  closeSubscriptions
    (stateOf (step Live (Sample.world (Sample.caretAt 4)) PanelCancel
                (Sample.clickedInLink Live))) = 0.
Proof.
  assert (R : Reachable Live (Sample.clickedInLink Live))
    by apply Reachable_step, Reachable_initial.
  split.
  - apply (proj2 (subscription_balance Live _ R)). reflexivity.
  - apply (proj1 (subscription_balance Live _
                    (Reachable_step Live _ PanelCancel _ R))).
    reflexivity.
Defined.

(** ** Panel actions *)

Lemma trace_three (t : list Call) (a b c : Call) :
  ((t ++ [a]) ++ [b]) ++ [c] = t ++ [a; b; c].
Proof. now rewrite <- !app_assoc. Qed.

Lemma executeThenHide_spec (policy : DispatchPolicy) (env : Env)
      (command : string) (param : option string) (s : State) :
  WF s -> executeOutcome env command param <> Thrown ->
  (_ <- execute env command param ;; _hidePanel policy true) s
  = Ok tt (logged CallFocus
             (hidden (logged (CallExecute command param
                                (executeOutcome env command param)) s))).
Proof.
  intros Hwf Hret. unfold bind. rewrite execute_returns by assumption.
  rewrite _hidePanel_spec by now apply WF_logged.
  reflexivity.
Qed.

Lemma executeThenHide_throws (policy : DispatchPolicy) (env : Env)
      (command : string) (param : option string) (s : State) :
  executeOutcome env command param = Thrown ->
  (_ <- execute env command param ;; _hidePanel policy true) s
  = Throw CommandError (logged (CallExecute command param Thrown) s).
Proof.
  intros Hthrown. unfold bind. now rewrite execute_throws.
Qed.



(** C8 -- Hiding after the mutation, as the source has it.  For the
    submit and the remove-link action, in every reachable state: when
    the call of the command layer returns, whatever it returns (a
    reported failure too), the command has been executed once, the panel
    is hidden with every listener installed on showing removed, and the
    editing view is focused; nothing is retried.  When the call throws,
    nothing catches the exception: it leaves the handler, the hide and
    the focus are skipped, and the panel stays as it was. *)
Theorem hide_unless_mutation_throws (policy : DispatchPolicy) (env : Env) (s : State) :
  Reachable policy s ->
  forall (ev : Event) (command : string) (param : option string),
    (ev = PanelSubmit /\ command = "link" /\ param = Some (urlInputValue env))
    \/ (ev = PanelUnlink /\ command = "unlink" /\ param = None) ->
    forall o : Outcome, executeOutcome env command param = o ->
    (o <> Thrown ->
     exists s',
       step policy env ev s = Ok tt s'
       /\ isVisible s' = false
       /\ listeners s' = static
       /\ trace s' = trace s ++ [CallExecute command param o; CallHide; CallFocus])
    /\
    (o = Thrown ->
     exists s',
       step policy env ev s = Throw CommandError s'
       /\ isVisible s' = isVisible s
       /\ anchoredTo s' = anchoredTo s
       /\ listeners s' = listeners s
       /\ trace s' = trace s ++ [CallExecute command param Thrown]).
Proof.
  intros Hreach ev command param Hev o Ho. apply Reachable_WF in Hreach.
  split.
  - intros Hret. rewrite <- Ho in Hret.
    destruct Hev as [(-> & -> & ->) | (-> & -> & ->)]; subst o;
      (eexists; split; [|split; [|split]];
       [ erewrite step_static by (eassumption || reflexivity);
         now apply executeThenHide_spec
       | reflexivity | reflexivity | apply trace_three ]).
  - intros ->.
    destruct Hev as [(-> & -> & ->) | (-> & -> & ->)];
      (eexists; split;
       [ erewrite step_static by (eassumption || reflexivity);
         now apply executeThenHide_throws
       | repeat split ]).
Qed.

Lemma hide_unless_mutation_throws_witness :
  (exists s',
     step Live (Sample.world (Sample.caretAt 4)) PanelUnlink
       (Sample.clickedInLink Live) = Ok tt s'
     /\ isVisible s' = false
     /\ listeners s' = static
     /\ trace s' = trace (Sample.clickedInLink Live) ++
          [CallExecute "unlink" None Failed; CallHide; CallFocus])
  /\
  (exists s',
     step Live (throwingWorld (Sample.caretAt 4)) PanelSubmit
       (Sample.clickedInLink Live) = Throw CommandError s'
     /\ isVisible s' = isVisible (Sample.clickedInLink Live)
     /\ anchoredTo s' = anchoredTo (Sample.clickedInLink Live)
     /\ listeners s' = listeners (Sample.clickedInLink Live)
     /\ trace s' = trace (Sample.clickedInLink Live) ++
          [CallExecute "link" (Some "http://example.com") Thrown]).
Proof.
  assert (R : Reachable Live (Sample.clickedInLink Live))
    by apply Reachable_step, Reachable_initial.
  split.
  - apply (proj1 (hide_unless_mutation_throws Live (Sample.world (Sample.caretAt 4))
                    _ R PanelUnlink "unlink" None
                    (or_intror (conj eq_refl (conj eq_refl eq_refl)))
                    Failed eq_refl)).
    discriminate.
  - apply (proj2 (hide_unless_mutation_throws Live (throwingWorld (Sample.caretAt 4))
                    _ R PanelSubmit "link" (Some "http://example.com")
                    (or_introl (conj eq_refl (conj eq_refl eq_refl)))
                    Thrown eq_refl)).
    reflexivity.
Defined.

(** C8, as stated, fails: when the link command throws, the submit
    action does not complete the hide and focus sequence; the shown
    panel stays shown, its listeners in place, and neither [hide] nor
    [focus] is called.  The same holds for the remove-link action. *)
Lemma mutation_throws_keeps_panel :
  let s := Sample.clickedInLink Live in
  let afterSubmit := step Live (throwingWorld (Sample.caretAt 4)) PanelSubmit s in
  let afterUnlink := step Live (throwingWorld (Sample.caretAt 4)) PanelUnlink s in
  isVisible s = true
  /\ afterSubmit
     = Throw CommandError
         (logged (CallExecute "link" (Some "http://example.com") Thrown) s)
  /\ isVisible (stateOf afterSubmit) = true
  /\ closeSubscriptions (stateOf afterSubmit) = 2
  /\ existsb (fun c => match c with
                       | CallHide | CallFocus => true
                       | _ => false
                       end) (trace (stateOf afterSubmit)) = false
  /\ isVisible (stateOf afterUnlink) = true.
Proof. vm_compute. repeat split. Qed.

(** ** Closing by a click outside the panel *)

(** C9 -- Outside click.  While the panel is shown, a mouse-up whose
    target is inside the panel's element changes nothing; a mouse-up
    whose target is outside hides the panel, and the editing view is
    focused exactly when the target is inside the editor's UI element. *)
Theorem outside_click (policy : DispatchPolicy) (env : Env) (d : DomEvt) (s : State) :
  Reachable policy s -> isVisible s = true ->
  (panelElementContains env (target d) = true ->
   step policy env (DomMouseup d) s = Ok tt s)
  /\
  (panelElementContains env (target d) = false ->
   exists s',
     step policy env (DomMouseup d) s = Ok tt s'
     /\ isVisible s' = false
     /\ trace s' = trace s ++
          CallHide :: (if editorUiElementContains env (target d)
                       then [CallFocus] else [])).
Proof.
  intros Hreach Hvis. apply Reachable_WF in Hreach.
  rewrite step_mouseup_shown by assumption.
  unfold onMouseup. split; intros Hpanel; rewrite Hpanel; [reflexivity|].
  unfold bind. rewrite hide_spec by assumption.
  destruct (editorUiElementContains env (target d)); eexists;
    (split; [reflexivity|split; [reflexivity|]]); simpl.
  - now rewrite <- app_assoc.
  - reflexivity.
Qed.

Lemma outside_click_witness :
  step Live (Sample.world (Sample.caretAt 4)) (DomMouseup {| target := 100; keyCode := 0 |})
    (Sample.clickedInLink Live) = Ok tt (Sample.clickedInLink Live)
  /\
  exists s',
    step Live (Sample.world (Sample.caretAt 4)) (DomMouseup {| target := 7; keyCode := 0 |})
      (Sample.clickedInLink Live) = Ok tt s'
    /\ isVisible s' = false
    /\ trace s' = trace (Sample.clickedInLink Live) ++ [CallHide; CallFocus].
Proof.
  assert (R : Reachable Live (Sample.clickedInLink Live))
    by apply Reachable_step, Reachable_initial.
  split.
  - apply (proj1 (outside_click Live (Sample.world (Sample.caretAt 4))
                    {| target := 100; keyCode := 0 |} _ R eq_refl)).
    reflexivity.
  - apply (proj2 (outside_click Live (Sample.world (Sample.caretAt 4))
                    {| target := 7; keyCode := 0 |} _ R eq_refl)).
    reflexivity.
Defined.

(** ** Render tracking *)

Lemma dispatch_render_null (policy : DispatchPolicy) (env : Env)
      (rs : list (nat * NodeRef)) (s : State) :
  getFirstPosition (selection env) = None ->
  dispatch policy (call policy env None) (map renderSub rs) s = Ok tt s.
Proof.
  intros Hnull. induction rs as [|r rs IH]; simpl; [reflexivity|].
  destruct (delivered policy (renderSub r) s); [|exact IH].
  unfold bind. simpl. unfold onRender. rewrite Hnull. exact IH.
Qed.

(** C10 -- Render without a first position.  A render notification for
    which the selection yields no first position leaves everything as it
    was: same visibility, same anchor, same listeners, no collaborator
    called. *)
Theorem render_without_position (policy : DispatchPolicy) (env : Env) (s : State) :
  Reachable policy s ->
  getFirstPosition (selection env) = None ->
  step policy env RenderCompleted s = Ok tt s.
Proof.
  intros Hreach Hnull.
  destruct (Reachable_WF policy s Hreach) as [Hv Hl | k m rs Hv Hl];
    unfold step, fire; rewrite Hl.
  - now rewrite static_no_render.
  - rewrite filter_render_shown. now apply dispatch_render_null.
Qed.

Lemma render_without_position_witness :
  isVisible (Sample.clickedInLink Live) = true
  /\ step Live (Sample.world Sample.noSelection) RenderCompleted
       (Sample.clickedInLink Live) = Ok tt (Sample.clickedInLink Live).
Proof.
  split; [reflexivity|].
  apply (render_without_position Live (Sample.world Sample.noSelection)).
  - apply Reachable_step, Reachable_initial.
  - reflexivity.
Defined.

Section RenderTracking.

Variable policy : DispatchPolicy.
Variable A : NodeRef.

Lemma sameLink_true (c : option NodeRef) : sameLink A c = true <-> c = Some A.
Proof.
  destruct c as [b|]; simpl.
  - rewrite Nat.eqb_eq. split; [now intros -> | now intros [= ->]].
  - split; discriminate.
Qed.

Lemma caretInside_position (env : Env) :
  caretInside A env ->
  exists p, getFirstPosition (selection env) = Some p
            /\ getPositionParentLink (tree env) (Some p) = inr (Some A).
Proof.
  intros [_ Hlink]. unfold linkAtSelection in Hlink.
  destruct (getFirstPosition (selection env)) as [p|]; [|discriminate].
  now exists p.
Qed.

Lemma onRender_stay (env : Env) (s : State) :
  WF s -> caretInside A env ->
  onRender policy env A s
  = Ok tt (shown (DomElementOf (Some A))
             (DomElementOf (editableElement (selection env))) s).
Proof.
  intros Hwf Hin. destruct (caretInside_position env Hin) as (p & Hp & Hlink).
  destruct Hin as [Hcol _]. unfold onRender. rewrite Hp, Hcol. cbn [negb].
  unfold bind. rewrite Hlink. simpl.
  rewrite Nat.eqb_refl. simpl.
  now rewrite _attachPanelToElement_spec.
Qed.

Lemma onRender_leave (env : Env) (s : State) :
  WF s -> caretLeft A env ->
  onRender policy env A s = Ok tt (hidden s).
Proof.
  intros Hwf [Hpos Hleft]. unfold onRender, linkAtSelection in *.
  destruct (getFirstPosition (selection env)) as [p|]; [|congruence].
  destruct (isCollapsed (selection env)); cbn [negb].
  - destruct Hleft as [Hf | Hother]; [discriminate|].
    unfold bind. simpl.
    destruct (sameLink A (find (instanceofLinkElement (tree env))
                            (getAncestors (tree env) (parent p)))) eqn:Hsame.
    + apply sameLink_true in Hsame. simpl in Hother. congruence.
    + simpl. now rewrite _hidePanel_spec.
  - now rewrite _hidePanel_spec.
Qed.

Lemma reattached_zero (a b : DomTarget) (s : State) :
  isVisible s = true -> reattached a b 0 s = s.
Proof.
  intros Hv. destruct s as [v an l n t]. simpl in Hv. subst v.
  unfold reattached. simpl. now rewrite app_nil_r.
Qed.

Lemma reattached_shown (a b : DomTarget) (n : nat) (s : State) :
  isVisible s = true ->
  reattached a b n (shown a b s) = reattached a b (S n) s.
Proof.
  intros Hv. unfold reattached, shown. simpl. rewrite Hv.
  rewrite <- app_assoc. now destruct n.
Qed.

(** While the caret stays inside [A], each render listener capturing [A]
    re-attaches the panel and none is removed. *)
Lemma dispatch_render_stay (env : Env) (rs : list (nat * NodeRef)) (s : State) :
  WF s -> isVisible s = true -> caretInside A env ->
  (forall r, In r rs -> In (renderSub r) (listeners s) /\ snd r = A) ->
  dispatch policy (call policy env None) (map renderSub rs) s
  = Ok tt (reattached (DomElementOf (Some A))
             (DomElementOf (editableElement (selection env)))
             (List.length rs) s).
Proof.
  intros Hwf Hv Hin. revert s Hwf Hv.
  induction rs as [|r rs IH]; intros s Hwf Hv Hrs; simpl.
  - now rewrite reattached_zero.
  - destruct (Hrs r (or_introl eq_refl)) as [Hreg HA].
    rewrite delivered_In by assumption.
    unfold bind. simpl. rewrite HA, onRender_stay by assumption.
    rewrite IH.
    + f_equal. now apply reattached_shown.
    + now apply WF_shown_state.
    + reflexivity.
    + intros r' Hr'. destruct (Hrs r' (or_intror Hr')) as [Hreg' HA'].
      split; [|assumption]. unfold shown. simpl. now rewrite Hv.
Qed.

(** Once the panel is hidden, render listeners capturing [A] that are
    still called keep it hidden. *)
Lemma dispatch_render_hidden (env : Env) (rs : list (nat * NodeRef)) (s : State) :
  WF s -> isVisible s = false -> caretLeft A env ->
  (forall r, In r rs -> snd r = A) ->
  isVisible (stateOf (dispatch policy (call policy env None) (map renderSub rs) s))
  = false.
Proof.
  intros Hwf Hv Hleft. revert s Hwf Hv.
  induction rs as [|r rs IH]; intros s Hwf Hv Hrs; simpl; [assumption|].
  assert (Hrest : forall r', In r' rs -> snd r' = A)
    by (intros r' Hr'; apply Hrs; now right).
  destruct (delivered policy (renderSub r) s); [|now apply IH].
  unfold bind. simpl. rewrite (Hrs r) by now left.
  rewrite onRender_leave by assumption.
  apply IH; [apply WF_hidden_state | reflexivity | assumption].
Qed.

Lemma Tracking_WF (s : State) : Tracking A s -> WF s.
Proof.
  intros (k & m & rs & Hv & Hl & _). now apply (WF_shown s k m rs).
Qed.

Lemma render_stay (env : Env) (s : State) :
  Tracking A s -> caretInside A env ->
  exists n,
    step policy env RenderCompleted s
    = Ok tt (reattached (DomElementOf (Some A))
               (DomElementOf (editableElement (selection env))) (S n) s).
Proof.
  intros Htr Hin. pose proof (Tracking_WF s Htr) as Hwf.
  destruct Htr as (k & m & rs & Hv & Hl & Hne & HA).
  destruct rs as [|r rs]; [congruence|]. exists (List.length rs).
  unfold step, fire. rewrite Hl, filter_render_shown.
  apply (dispatch_render_stay env (r :: rs) s); try assumption.
  intros r' Hr'. split; [|now apply HA].
  rewrite Hl. apply in_or_app. right. unfold dynamicSubs.
  right. right. now apply in_map.
Qed.

Lemma render_leave (env : Env) (s : State) :
  Tracking A s -> caretLeft A env ->
  isVisible (stateOf (step policy env RenderCompleted s)) = false.
Proof.
  intros Htr Hleft. pose proof (Tracking_WF s Htr) as Hwf.
  destruct Htr as (k & m & rs & Hv & Hl & Hne & HA).
  destruct rs as [|r rs]; [congruence|].
  unfold step, fire. rewrite Hl, filter_render_shown. simpl.
  rewrite delivered_In.
  - unfold bind. simpl. rewrite (HA r) by now left.
    rewrite onRender_leave by assumption.
    apply dispatch_render_hidden;
      [apply WF_hidden_state | reflexivity | assumption |].
    intros r' Hr'. apply HA. now right.
  - rewrite Hl. apply in_or_app. right. right. right. now left.
Qed.

Lemma Tracking_reattached (a b : DomTarget) (n : nat) (s : State) :
  Tracking A s -> Tracking A (reattached a b n s).
Proof.
  intros (k & m & rs & Hv & Hl & Hne & HA). now exists k, m, rs.
Qed.

End RenderTracking.

(** ** The document click *)

Section Click.

Variable policy : DispatchPolicy.
Variable env : Env.

Lemma onClick_shows (l : NodeRef) (s : State) :
  WF s ->
  linkAtSelection env = inr (Some l) -> isCollapsed (selection env) = true ->
  onClick policy env s
  = listenTo LinkFeature ViewDocument "render" (OnRender l)
      (shown (DomElementOf (Some l))
         (DomElementOf (editableElement (selection env))) s).
Proof.
  intros Hwf Hlink Hcol. unfold onClick, bind. unfold linkAtSelection in Hlink.
  rewrite Hlink. simpl. rewrite Hcol.
  rewrite _attachPanelToElement_spec by assumption.
  unfold anchorFor. now rewrite Hlink.
Qed.

Lemma onClick_ignored (s : State) :
  clickShows env = false -> stateOf (onClick policy env s) = s.
Proof.
  unfold clickShows, linkAtSelection, onClick, bind.
  destruct (getPositionParentLink (tree env) (getFirstPosition (selection env)))
    as [e | [l|]]; simpl; try reflexivity.
  now intros ->.
Qed.

Lemma clickShows_true :
  clickShows env = true ->
  exists l, linkAtSelection env = inr (Some l) /\ isCollapsed (selection env) = true.
Proof.
  unfold clickShows. destruct (linkAtSelection env) as [e | [l|]]; try discriminate.
  intros Hcol. now exists l.
Qed.

(** A click on a shown panel keeps it shown, keeps the escape and
    mouseup listeners, and appends one render listener when the click
    qualifies. *)
Lemma click_on_shown (k m : nat) (rs : list (nat * NodeRef)) (s : State) :
  isVisible s = true -> listeners s = static ++ dynamicSubs k m rs ->
  let c := stateOf (step policy env DocumentClick s) in
  isVisible c = true
  /\ exists rs', listeners c = static ++ dynamicSubs k m rs'
                 /\ List.length rs' = List.length rs + (if clickShows env then 1 else 0).
Proof.
  intros Hv Hl c. subst c.
  assert (Hwf : WF s) by now apply (WF_shown s k m rs).
  static_step DocumentClick OnClick.
  simpl call. destruct (clickShows env) eqn:Hshows.
  - destruct (clickShows_true Hshows) as (l & Hlink & Hcol).
    rewrite (onClick_shows l) by assumption.
    split; [reflexivity|].
    exists (rs ++ [(nextSid s, l)]). split.
    + simpl. rewrite Hv, Hl. unfold dynamicSubs. rewrite map_app. simpl.
      now rewrite <- app_assoc.
    + now rewrite length_app.
  - rewrite onClick_ignored by assumption.
    split; [assumption|]. exists rs. split; [assumption | lia].
Qed.

Lemma click_starts_tracking (A : NodeRef) (s : State) :
  WF s -> Forall (fun l => l = A) (tracked s) -> caretInside A env ->
  let s1 := stateOf (step policy env DocumentClick s) in
  Tracking A s1
  /\ anchoredTo s1 = Some (DomElementOf (Some A),
                           DomElementOf (editableElement (selection env))).
Proof.
  intros Hwf Hall [Hcol Hlink] s1. subst s1.
  static_step DocumentClick OnClick.
  simpl call. rewrite (onClick_shows A) by assumption.
  split; [|reflexivity].
  destruct Hwf as [Hv Hl | k m rs Hv Hl].
  - exists (nextSid s), (S (nextSid s)), [(S (S (nextSid s)), A)].
    simpl. rewrite Hv. refine (conj eq_refl (conj _ (conj _ _))).
    + now rewrite <- app_assoc.
    + discriminate.
    + intros r [<- | []]. reflexivity.
  - exists k, m, (rs ++ [(nextSid s, A)]).
    simpl. rewrite Hv, Hl. refine (conj eq_refl (conj _ (conj _ _))).
    + unfold dynamicSubs. rewrite map_app. simpl. now rewrite <- app_assoc.
    + now destruct rs.
    + intros r Hr. apply in_app_or in Hr. destruct Hr as [Hr | [<- | []]];
        [|reflexivity].
      rewrite (tracked_shown k m rs s Hl) in Hall.
      rewrite Forall_forall in Hall. apply Hall. now apply in_map.
Qed.

End Click.

(** C2 -- Showing again, as the source has it.  While the panel is
    shown, the toolbar button and the keystroke leave it shown and leave
    the listener registry exactly as it was.  A document click leaves it
    shown with the same escape and outside-mouseup subscriptions, and a
    qualifying click (a caret inside a link) installs one more
    render-tracking subscription. *)
Theorem show_again (policy : DispatchPolicy) (env : Env) (s : State) :
  Reachable policy s -> isVisible s = true ->
  let byButton := stateOf (step policy env ToolbarLink s) in
  let byKeystroke := stateOf (step policy env KeystrokeCtrlL s) in
  let byClick := stateOf (step policy env DocumentClick s) in
  (isVisible byButton = true /\ listeners byButton = listeners s)
  /\ (isVisible byKeystroke = true /\ listeners byKeystroke = listeners s)
  /\ (isVisible byClick = true
      /\ escapeSubscriptions byClick = escapeSubscriptions s
      /\ outsideClickSubscriptions byClick = outsideClickSubscriptions s
      /\ renderSubscriptions byClick
         = renderSubscriptions s + (if clickShows env then 1 else 0)).
Proof.
  intros Hreach Hv. pose proof (Reachable_WF policy s Hreach) as Hwf.
  assert (Hattach :
    isVisible (stateOf ((_attachPanelToElement policy env None ;;
                         log CallUrlInputSelect) s)) = true
    /\ listeners (stateOf ((_attachPanelToElement policy env None ;;
                            log CallUrlInputSelect) s)) = listeners s).
  { unfold bind. rewrite _attachPanelToElement_spec by assumption.
    destruct (anchorFor env None) as [e|a]; simpl; [now split|].
    now rewrite Hv. }
  intros byButton byKeystroke byClick. repeat split.
  - subst byButton.
    static_step ToolbarLink OnLinkButtonExecute.
    simpl call. destruct (isFocused env); simpl negb; cbv iota;
      [apply Hattach | assumption].
  - subst byButton.
    static_step ToolbarLink OnLinkButtonExecute.
    simpl call. destruct (isFocused env); simpl negb; cbv iota;
      [apply Hattach | reflexivity].
  - subst byKeystroke.
    static_step KeystrokeCtrlL OnCtrlL.
    apply Hattach.
  - subst byKeystroke.
    static_step KeystrokeCtrlL OnCtrlL.
    apply Hattach.
  - destruct Hwf as [Hh _ | k m rs _ Hl]; [congruence|].
    apply (click_on_shown policy env k m rs s Hv Hl).
  - destruct Hwf as [Hh _ | k m rs _ Hl]; [congruence|].
    destruct (click_on_shown policy env k m rs s Hv Hl) as (_ & rs' & Hl' & _).
    destruct (count_shown k m rs s Hl) as (-> & _).
    now destruct (count_shown k m rs' byClick Hl') as (-> & _).
  - destruct Hwf as [Hh _ | k m rs _ Hl]; [congruence|].
    destruct (click_on_shown policy env k m rs s Hv Hl) as (_ & rs' & Hl' & _).
    destruct (count_shown k m rs s Hl) as (_ & -> & _).
    now destruct (count_shown k m rs' byClick Hl') as (_ & -> & _).
  - destruct Hwf as [Hh _ | k m rs _ Hl]; [congruence|].
    destruct (click_on_shown policy env k m rs s Hv Hl) as (_ & rs' & Hl' & Hlen).
    destruct (count_shown k m rs s Hl) as (_ & _ & ->).
    destruct (count_shown k m rs' byClick Hl') as (_ & _ & ->).
    exact Hlen.
Qed.

Lemma show_again_witness :
  listeners (stateOf (step Live (Sample.world (Sample.caretAt 7)) ToolbarLink
                        (Sample.clickedInLink Live)))
  = listeners (Sample.clickedInLink Live)
  /\
  renderSubscriptions (stateOf (step Live (Sample.world (Sample.caretAt 6)) DocumentClick
                                  (Sample.clickedInLink Live)))
  = renderSubscriptions (Sample.clickedInLink Live) + 1.
Proof.
  assert (R : Reachable Live (Sample.clickedInLink Live))
    by apply Reachable_step, Reachable_initial.
  split.
  - apply (show_again Live (Sample.world (Sample.caretAt 7)) _ R eq_refl).
  - apply (show_again Live (Sample.world (Sample.caretAt 6)) _ R eq_refl).
Defined.

(** C2, as stated, fails: a second qualifying click on a shown panel
    installs a second render-tracking subscription. *)
Lemma second_click_adds_render_listener :
  isVisible (Sample.clickedInLink Live) = true
  /\ renderSubscriptions (Sample.clickedInLink Live) = 1
  /\ renderSubscriptions
       (stateOf (step Live (Sample.world (Sample.caretAt 4)) DocumentClick
                   (Sample.clickedInLink Live))) = 2
  /\ renderSubscriptions
       (stateOf (step Snapshot (Sample.world (Sample.caretAt 4)) DocumentClick
                   (Sample.clickedInLink Snapshot))) = 2.
Proof. vm_compute. auto. Qed.

(** ** Tracking the clicked link across renders *)

Lemma last_cons_default {X : Type} (x d : X) (l : list X) :
  last (x :: l) d = last l x.
Proof.
  revert x d. induction l as [|y l IH]; intros x d; [reflexivity|].
  change (last (x :: y :: l) d) with (last (y :: l) d).
  now rewrite (IH y d), (IH y x).
Qed.

Lemma renderAll_cons (policy : DispatchPolicy) (e : Env) (renders : list Env) (s : State) :
  renderAll policy (e :: renders) s
  = renderAll policy renders (stateOf (step policy e RenderCompleted s)).
Proof. reflexivity. Qed.

Lemma renderAll_stay (policy : DispatchPolicy) (A : NodeRef) (renders : list Env) :
  Forall (caretInside A) renders ->
  forall (previous : Env) (s : State),
    Tracking A s ->
    anchoredTo s = Some (DomElementOf (Some A),
                         DomElementOf (editableElement (selection previous))) ->
    Tracking A (renderAll policy renders s)
    /\ anchoredTo (renderAll policy renders s)
       = Some (DomElementOf (Some A),
               DomElementOf (editableElement (selection (last renders previous)))).
Proof.
  induction 1 as [|e renders He _ IH]; intros previous s Htr Hanchor.
  - split; assumption.
  - rewrite renderAll_cons.
    destruct (render_stay policy A e s Htr He) as [n Hstep].
    rewrite Hstep. cbn [stateOf]. rewrite last_cons_default.
    apply IH; [now apply Tracking_reattached | reflexivity].
Qed.

(** C3 -- Tracking fidelity, as the source has it.  A document click
    with a caret inside link [A], arriving when no render listener for
    another link is registered (as when the panel was hidden), shows the
    panel.  Through any number of render notifications with the caret
    still inside [A] the panel stays shown, anchored to [A]'s element;
    one more such render calls [attachTo] on [A]'s element again; and a
    render whose selection has a first position and is a range, or
    inside another link, or inside none, hides the panel. *)
Theorem tracking_fidelity (policy : DispatchPolicy) (A : NodeRef)
        (click : Env) (renders : list Env) (s : State) :
  Reachable policy s ->
  Forall (fun l => l = A) (tracked s) ->
  caretInside A click ->
  Forall (caretInside A) renders ->
  let s1 := stateOf (step policy click DocumentClick s) in
  let s2 := renderAll policy renders s1 in
  isVisible s1 = true
  /\ isVisible s2 = true
  /\ anchoredTo s2
     = Some (DomElementOf (Some A),
             DomElementOf (editableElement (selection (last renders click))))
  /\ (forall e, caretInside A e ->
        exists n s3,
          step policy e RenderCompleted s2 = Ok tt s3
          /\ isVisible s3 = true
          /\ trace s3 = trace s2 ++
               repeat (CallAttachTo (DomElementOf (Some A))
                         (DomElementOf (editableElement (selection e)))) (S n))
  /\ (forall e, caretLeft A e ->
        isVisible (stateOf (step policy e RenderCompleted s2)) = false).
Proof.
  intros Hreach Hall Hclick Hrenders s1 s2.
  apply Reachable_WF in Hreach.
  destruct (click_starts_tracking policy click A s Hreach Hall Hclick)
    as [Htr1 Hanchor1].
  destruct (renderAll_stay policy A renders Hrenders click s1 Htr1 Hanchor1)
    as [Htr2 Hanchor2].
  fold s2 in Htr2, Hanchor2.
  refine (conj _ (conj _ (conj Hanchor2 (conj _ _)))).
  - now destruct Htr1 as (k & m & rs & Hv & _).
  - now destruct Htr2 as (k & m & rs & Hv & _).
  - intros e He. destruct (render_stay policy A e s2 Htr2 He) as [n Hstep].
    exists n. eexists. split; [exact Hstep | split; reflexivity].
  - intros e He. now apply (render_leave policy A).
Qed.

Lemma tracking_fidelity_witness :
  let s1 := Sample.clickedInLink Live in
  let s2 := renderAll Live [Sample.world (Sample.caretAt 4)] s1 in
  isVisible s2 = true
  /\ isVisible (stateOf (step Live (Sample.world (Sample.caretAt 6))
                           RenderCompleted s2)) = false
  /\ isVisible (stateOf (step Live (Sample.world (Sample.rangeOver 4))
                           RenderCompleted s2)) = false.
Proof.
  assert (Hin : caretInside 3 (Sample.world (Sample.caretAt 4)))
    by (split; reflexivity).
  pose proof (tracking_fidelity Live 3 (Sample.world (Sample.caretAt 4))
                [Sample.world (Sample.caretAt 4)] initial
                (Reachable_initial Live) (Forall_nil _) Hin
                (Forall_cons _ Hin (Forall_nil _))) as H.
  destruct H as (_ & Hshown & _ & _ & Hleave).
  split; [exact Hshown|]. split.
  - apply Hleave. split; [discriminate|]. right. discriminate.
  - apply Hleave. split; [discriminate|]. left. reflexivity.
Defined.

(** Why the click must not meet render tracking of another link: a
    click inside link 5 and then, the panel still shown, a click inside
    link 3 leave two render listeners.  At the next render, with the
    caret still inside link 3, the older listener hides the panel; the
    newer one is skipped ([Live]) or shows the panel again with no
    listener left to track it ([Snapshot]). *)
Example stale_tracking :
  let click5 := Sample.world (Sample.caretAt 6) in
  let click3 := Sample.world (Sample.caretAt 4) in
  let run policy :=
    stateOf (step policy click3 RenderCompleted
               (stateOf (step policy click3 DocumentClick
                           (stateOf (step policy click5 DocumentClick initial))))) in
  isVisible (run Live) = false
  /\ isVisible (run Snapshot) = true /\ tracked (run Snapshot) = [].
Proof. vm_compute. auto. Qed.

(** C3, as stated, fails: after the click, a render whose selection is
    no longer collapsed but has no first position leaves the panel
    shown. *)
Lemma render_without_position_keeps_panel :
  isVisible (Sample.clickedInLink Live) = true
  /\ isCollapsed (selection (Sample.world Sample.noSelection)) = false
  /\ isVisible (stateOf (step Live (Sample.world Sample.noSelection) RenderCompleted
                           (Sample.clickedInLink Live))) = true
  /\ isVisible (stateOf (step Snapshot (Sample.world Sample.noSelection) RenderCompleted
                           (Sample.clickedInLink Snapshot))) = true.
Proof. vm_compute. auto. Qed.

(** * Further properties of the feature *)

(** ** The registry while the panel is hidden *)

(** X1 -- Whenever the panel is hidden the registry holds the registrations of
    [init] and nothing else: no escape, no mouseup and no render
    listener survives a hide. *)
Theorem hidden_registry (policy : DispatchPolicy) (s : State) :
  Reachable policy s -> isVisible s = false ->
  listeners s = static /\ renderSubscriptions s = 0 /\ tracked s = [].
Proof.
  intros Hreach Hv.
  destruct (Reachable_WF policy s Hreach) as [_ Hl | k m rs Hv' _]; [|congruence].
  refine (conj Hl (conj _ (tracked_hidden s Hl))).
  unfold renderSubscriptions, count, isRenderTracking.
  now rewrite Hl, static_no_render.
Qed.

Lemma hidden_registry_witness :
  listeners (stateOf (step Live (Sample.world (Sample.caretAt 6)) RenderCompleted
                        (Sample.clickedInLink Live))) = static.
Proof.
  apply (hidden_registry Live).
  - apply Reachable_step, Reachable_step, Reachable_initial.
  - reflexivity.
Defined.

(** X2 -- While the panel is hidden, key presses, mouse-ups and render
    notifications reach no callback: the state stays what it was. *)
Theorem hidden_ignores (policy : DispatchPolicy) (env : Env) (s : State) :
  Reachable policy s -> isVisible s = false ->
  forall ev, handlerOf ev = None -> step policy env ev s = Ok tt s.
Proof.
  intros Hreach Hv ev Hev.
  destruct (Reachable_WF policy s Hreach) as [_ Hl | k m rs Hv' _]; [|congruence].
  destruct ev; try discriminate; apply fire_none; rewrite Hl.
  - apply static_no_render.
  - apply static_no_dom.
  - apply static_no_dom.
Qed.

Lemma hidden_ignores_witness :
  step Live (Sample.world (Sample.caretAt 4)) (DomKeydown {| target := 7; keyCode := 27 |})
    initial = Ok tt initial.
Proof.
  apply (hidden_ignores Live (Sample.world (Sample.caretAt 4)) initial
           (Reachable_initial Live)); reflexivity.
Defined.

(** ** Closing by the escape key *)

(** X3 -- While the panel is shown, a key press with code 27 hides the panel,
    removes every listener installed since it was shown and focuses the
    editing view; any other key changes nothing. *)
Theorem escape_key (policy : DispatchPolicy) (env : Env) (d : DomEvt) (s : State) :
  Reachable policy s -> isVisible s = true ->
  (keyCode d = 27 ->
   step policy env (DomKeydown d) s = Ok tt (logged CallFocus (hidden s)))
  /\ (keyCode d <> 27 -> step policy env (DomKeydown d) s = Ok tt s).
Proof.
  intros Hreach Hv. apply Reachable_WF in Hreach.
  rewrite step_keydown_shown by assumption. unfold _closePanelOnClick.
  split; intros Hkey.
  - rewrite Hkey. simpl. now rewrite _hidePanel_spec.
  - apply Nat.eqb_neq in Hkey. now rewrite Hkey.
Qed.

Lemma escape_key_witness :
  step Live (Sample.world (Sample.caretAt 4)) (DomKeydown {| target := 7; keyCode := 27 |})
    (Sample.clickedInLink Live)
  = Ok tt (logged CallFocus (hidden (Sample.clickedInLink Live)))
  /\
  step Live (Sample.world (Sample.caretAt 4)) (DomKeydown {| target := 7; keyCode := 13 |})
    (Sample.clickedInLink Live)
  = Ok tt (Sample.clickedInLink Live).
Proof.
  assert (R : Reachable Live (Sample.clickedInLink Live))
    by apply Reachable_step, Reachable_initial.
  split.
  - apply (proj1 (escape_key Live (Sample.world (Sample.caretAt 4))
                    {| target := 7; keyCode := 27 |} _ R eq_refl)).
    reflexivity.
  - apply (proj2 (escape_key Live (Sample.world (Sample.caretAt 4))
                    {| target := 7; keyCode := 13 |} _ R eq_refl)).
    discriminate.
Defined.

(** ** The toolbar buttons and the keystroke *)

Lemma attachThenSelect_spec (policy : DispatchPolicy) (env : Env)
      (a : DomTarget) (s : State) :
  WF s -> anchorFor env None = inr a ->
  (_attachPanelToElement policy env None ;; log CallUrlInputSelect) s
  = Ok tt (logged CallUrlInputSelect
             (shown a (DomElementOf (editableElement (selection env))) s)).
Proof.
  intros Hwf Ha. unfold bind.
  rewrite _attachPanelToElement_spec by assumption. now rewrite Ha.
Qed.

(** X4 -- The link button does nothing while the editing view is not focused.
    When it is focused the panel is attached where [_attachPanelToElement]
    decides and shown, and then the URL field is selected. *)
Theorem toolbar_link_button (policy : DispatchPolicy) (env : Env) (s : State) :
  Reachable policy s ->
  (isFocused env = false -> step policy env ToolbarLink s = Ok tt s)
  /\ (isFocused env = true ->
      forall a, anchorFor env None = inr a ->
        step policy env ToolbarLink s
        = Ok tt (logged CallUrlInputSelect
                   (shown a (DomElementOf (editableElement (selection env))) s))).
Proof.
  intros Hreach. apply Reachable_WF in Hreach.
  static_step ToolbarLink OnLinkButtonExecute. simpl call.
  split; intros Hfocus; rewrite Hfocus; [reflexivity|].
  intros a Ha. now apply attachThenSelect_spec.
Qed.

Lemma toolbar_link_button_witness :
  step Live (unfocusedWorld (Sample.caretAt 4))
    ToolbarLink initial = Ok tt initial
  /\
  step Live (Sample.world (Sample.rangeOver 7)) ToolbarLink initial
  = Ok tt (logged CallUrlInputSelect
             (shown (DomRangeOf (getFirstRange (Sample.rangeOver 7)))
                (DomElementOf (Some 1)) initial)).
Proof.
  split.
  - apply (proj1 (toolbar_link_button Live (unfocusedWorld (Sample.caretAt 4))
                    initial (Reachable_initial Live))).
    reflexivity.
  - apply (proj2 (toolbar_link_button Live (Sample.world (Sample.rangeOver 7))
                    initial (Reachable_initial Live))); reflexivity.
Defined.

(** X5 -- The keystroke shows the panel whether or not the editing view is
    focused: from a hidden panel it leaves the panel shown at the place
    [_attachPanelToElement] decides, with the two close listeners and no
    render tracking, and the URL field selected last. *)
Theorem keystroke_shows (policy : DispatchPolicy) (env : Env) (a : DomTarget) (s : State) :
  Reachable policy s -> isVisible s = false ->
  anchorFor env None = inr a ->
  exists s',
    step policy env KeystrokeCtrlL s = Ok tt s'
    /\ isVisible s' = true
    /\ anchoredTo s' = Some (a, DomElementOf (editableElement (selection env)))
    /\ closeSubscriptions s' = 2
    /\ renderSubscriptions s' = 0
    /\ trace s' = trace s ++
         [CallAttachTo a (DomElementOf (editableElement (selection env)));
          CallUrlInputSelect].
Proof.
  intros Hreach Hv Ha. apply Reachable_WF in Hreach.
  static_step KeystrokeCtrlL OnCtrlL. simpl call.
  rewrite (attachThenSelect_spec policy env a) by assumption.
  eexists. split; [reflexivity|].
  assert (Hl : listeners (logged CallUrlInputSelect
                 (shown a (DomElementOf (editableElement (selection env))) s))
               = static ++ dynamicSubs (nextSid s) (S (nextSid s)) [])
    by (simpl; now rewrite Hv).
  destruct (count_shown _ _ _ _ Hl) as (He & Hm & Hr).
  refine (conj eq_refl (conj eq_refl (conj _ (conj Hr _)))).
  - unfold closeSubscriptions. now rewrite He, Hm.
  - simpl. now rewrite <- app_assoc.
Qed.

Lemma keystroke_shows_witness :
  exists s',
    step Snapshot (unfocusedWorld (Sample.caretAt 4))
      KeystrokeCtrlL initial = Ok tt s'
    /\ isVisible s' = true
    /\ anchoredTo s' = Some (DomElementOf (Some 3), DomElementOf (Some 1))
    /\ closeSubscriptions s' = 2
    /\ renderSubscriptions s' = 0
    /\ trace s' = trace initial ++
         [CallAttachTo (DomElementOf (Some 3)) (DomElementOf (Some 1));
          CallUrlInputSelect].
Proof.
  apply (keystroke_shows Snapshot (unfocusedWorld (Sample.caretAt 4))
           (DomElementOf (Some 3)) initial (Reachable_initial Snapshot));
    reflexivity.
Defined.

(** X6 -- The unlink button of the toolbar calls the unlink command and
    nothing more: whether the call returns or throws, a shown panel
    stays shown, anchored and listened to as before, and the only trace
    of the event is the call itself. *)
Theorem toolbar_unlink_keeps_panel (policy : DispatchPolicy) (env : Env) (s : State) :
  Reachable policy s ->
  stateOf (step policy env ToolbarUnlink s)
  = logged (CallExecute "unlink" None (executeOutcome env "unlink" None)) s
  /\ (executeOutcome env "unlink" None <> Thrown ->
      step policy env ToolbarUnlink s
      = Ok tt (logged (CallExecute "unlink" None (executeOutcome env "unlink" None)) s)).
Proof.
  intros Hreach. apply Reachable_WF in Hreach.
  static_step ToolbarUnlink OnUnlinkButtonExecute. simpl call. unfold bind.
  split.
  - rewrite <- (execute_state env "unlink" None s).
    now destruct (execute env "unlink" None s).
  - intros Hret. now rewrite execute_returns.
Qed.

Lemma toolbar_unlink_keeps_panel_witness :
  isVisible (stateOf (step Live (Sample.world (Sample.caretAt 4)) ToolbarUnlink
                        (Sample.clickedInLink Live))) = true
  /\
  step Live (Sample.world (Sample.caretAt 4)) ToolbarUnlink (Sample.clickedInLink Live)
  = Ok tt (logged (CallExecute "unlink" None Failed) (Sample.clickedInLink Live)).
Proof.
  pose proof (toolbar_unlink_keeps_panel Live (Sample.world (Sample.caretAt 4))
                (Sample.clickedInLink Live)
                (Reachable_step Live _ DocumentClick _ (Reachable_initial Live)))
    as [Hstate Hret].
  split.
  - rewrite Hstate. reflexivity.
  - apply Hret. discriminate.
Defined.

(** X7 -- The cancel action hides the panel and focuses the editing view
    without calling the command layer. *)
Theorem cancel_hides (policy : DispatchPolicy) (env : Env) (s : State) :
  Reachable policy s ->
  step policy env PanelCancel s = Ok tt (logged CallFocus (hidden s)).
Proof.
  intros Hreach. apply Reachable_WF in Hreach.
  static_step PanelCancel OnExecuteCancel. simpl call.
  now rewrite _hidePanel_spec.
Qed.

Lemma cancel_hides_witness :
  trace (stateOf (step Live (Sample.world (Sample.caretAt 4)) PanelCancel
                    (Sample.clickedInLink Live)))
  = trace (Sample.clickedInLink Live) ++ [CallHide; CallFocus].
Proof.
  rewrite (cancel_hides Live (Sample.world (Sample.caretAt 4))
             (Sample.clickedInLink Live)
             (Reachable_step Live _ DocumentClick _ (Reachable_initial Live))).
  reflexivity.
Defined.

(** ** More on the locator *)

Lemma find_first_split {X : Type} (f : X -> bool) (l : list X) (x : X) :
  find f l = Some x ->
  exists before after,
    l = before ++ x :: after /\ f x = true
    /\ forall y, In y before -> f y = false.
Proof.
  induction l as [|y l IH]; simpl; [discriminate|].
  destruct (f y) eqn:Hy.
  - intros [= ->]. exists [], l. repeat split; [assumption | intros z []].
  - intros Hfind. destruct (IH Hfind) as (before & after & -> & Hx & Hbefore).
    exists (y :: before), after. repeat split; [assumption|].
    intros z [<- | Hz]; [assumption | now apply Hbefore].
Qed.

(** X8 -- With several link elements in the chain the locator returns the
    first one in the order [getAncestors] gives: whatever it returns is
    a link element of the chain with no link element before it, and it
    returns none exactly when the chain holds no link element. *)
Theorem locator_first_link (t : ViewTree) (p : Position) :
  (forall l, getPositionParentLink t (Some p) = inr (Some l) ->
     exists before after,
       getAncestors t (parent p) = before ++ l :: after
       /\ instanceofLinkElement t l = true
       /\ forall n, In n before -> instanceofLinkElement t n = false)
  /\ (getPositionParentLink t (Some p) = inr None <->
      forall n, In n (getAncestors t (parent p)) -> instanceofLinkElement t n = false).
Proof.
  split; [|split].
  - intros l [= Hfind]. now apply find_first_split.
  - intros [= Hfind] n Hn. exact (find_none _ _ Hfind n Hn).
  - intros Hnone. simpl. f_equal. now apply find_no_link.
Qed.

Lemma locator_first_link_witness :
  getPositionParentLink nestedTree (Some {| parent := 9; offset := 0 |}) = inr (Some 3)
  /\
  exists before after,
    getAncestors nestedTree 9 = before ++ 3 :: after
    /\ instanceofLinkElement nestedTree 3 = true
    /\ forall n, In n before -> instanceofLinkElement nestedTree n = false.
Proof.
  split; [reflexivity|].
  apply (proj1 (locator_first_link nestedTree {| parent := 9; offset := 0 |}) 3).
  reflexivity.
Defined.

(** ** The document click *)

Lemma click_from_hidden (policy : DispatchPolicy) (env : Env) (l : NodeRef) (s : State) :
  WF s -> isVisible s = false ->
  linkAtSelection env = inr (Some l) -> isCollapsed (selection env) = true ->
  exists s',
    step policy env DocumentClick s = Ok tt s'
    /\ isVisible s' = true
    /\ listeners s' = static ++ dynamicSubs (nextSid s) (S (nextSid s))
                                  [(S (S (nextSid s)), l)]
    /\ anchoredTo s' = Some (DomElementOf (Some l),
                             DomElementOf (editableElement (selection env)))
    /\ trace s' = trace s ++
         [CallAttachTo (DomElementOf (Some l))
            (DomElementOf (editableElement (selection env)))].
Proof.
  intros Hwf Hv Hlink Hcol.
  static_step DocumentClick OnClick. simpl call.
  rewrite (onClick_shows policy env l) by assumption.
  eexists. split; [reflexivity|].
  refine (conj eq_refl (conj _ (conj eq_refl eq_refl))).
  simpl. rewrite Hv. now rewrite <- app_assoc.
Qed.

(** X9 -- A click that is not a caret inside a link (a range, a caret outside
    any link, no selection at all) leaves the state exactly as it was,
    shown or hidden. *)
Theorem click_outside_link_ignored (policy : DispatchPolicy) (env : Env) (s : State) :
  Reachable policy s -> clickShows env = false ->
  stateOf (step policy env DocumentClick s) = s.
Proof.
  intros Hreach Hno. apply Reachable_WF in Hreach.
  static_step DocumentClick OnClick. simpl call.
  now apply onClick_ignored.
Qed.

Lemma click_outside_link_ignored_witness :
  stateOf (step Live (Sample.world (Sample.rangeOver 4)) DocumentClick
             (Sample.clickedInLink Live))
  = Sample.clickedInLink Live.
Proof.
  apply (click_outside_link_ignored Live (Sample.world (Sample.rangeOver 4))).
  - apply Reachable_step, Reachable_initial.
  - reflexivity.
Defined.

(** X10 -- A click with a caret inside link [l] on a hidden panel shows the
    panel on [l]'s element, installs the two close listeners and one
    render listener capturing [l], and calls nothing but [attachTo]: the
    URL field is not selected. *)
Theorem click_in_link_shows (policy : DispatchPolicy) (env : Env) (l : NodeRef) (s : State) :
  Reachable policy s -> isVisible s = false ->
  linkAtSelection env = inr (Some l) -> isCollapsed (selection env) = true ->
  exists s',
    step policy env DocumentClick s = Ok tt s'
    /\ isVisible s' = true
    /\ tracked s' = [l]
    /\ closeSubscriptions s' = 2
    /\ anchoredTo s' = Some (DomElementOf (Some l),
                             DomElementOf (editableElement (selection env)))
    /\ trace s' = trace s ++
         [CallAttachTo (DomElementOf (Some l))
            (DomElementOf (editableElement (selection env)))].
Proof.
  intros Hreach Hv Hlink Hcol. apply Reachable_WF in Hreach.
  destruct (click_from_hidden policy env l s Hreach Hv Hlink Hcol)
    as (s' & Hstep & Hv' & Hl' & Hanchor & Htrace).
  exists s'. refine (conj Hstep (conj Hv' (conj _ (conj _ (conj Hanchor Htrace))))).
  - now rewrite (tracked_shown _ _ _ s' Hl').
  - unfold closeSubscriptions.
    now destruct (count_shown _ _ _ s' Hl') as (-> & -> & _).
Qed.

Lemma click_in_link_shows_witness :
  exists s',
    step Live (Sample.world (Sample.caretAt 6)) DocumentClick initial = Ok tt s'
    /\ isVisible s' = true
    /\ tracked s' = [5]
    /\ closeSubscriptions s' = 2
    /\ anchoredTo s' = Some (DomElementOf (Some 5), DomElementOf (Some 1))
    /\ trace s' = trace initial ++
         [CallAttachTo (DomElementOf (Some 5)) (DomElementOf (Some 1))].
Proof.
  apply (click_in_link_shows Live (Sample.world (Sample.caretAt 6)) 5 initial
           (Reachable_initial Live)); reflexivity.
Defined.

(** X11 -- The order the source relies on: a mouse-up outside the panel and
    then the click.  Whatever was tracked before, the mouse-up hides the
    panel and drops the tracking, and a click with the caret inside link
    [B] shows the panel on [B] with [B] as the only tracked link. *)
Theorem mouseup_then_click (policy : DispatchPolicy) (up click : Env)
        (d : DomEvt) (B : NodeRef) (s : State) :
  Reachable policy s -> isVisible s = true ->
  panelElementContains up (target d) = false ->
  caretInside B click ->
  let s1 := stateOf (step policy up (DomMouseup d) s) in
  let s2 := stateOf (step policy click DocumentClick s1) in
  isVisible s1 = false
  /\ isVisible s2 = true
  /\ tracked s2 = [B]
  /\ closeSubscriptions s2 = 2
  /\ anchoredTo s2 = Some (DomElementOf (Some B),
                           DomElementOf (editableElement (selection click))).
Proof.
  intros Hreach Hv Hout [Hcol Hlink] s1 s2.
  apply Reachable_WF in Hreach.
  assert (H1 : WF s1 /\ isVisible s1 = false).
  { subst s1. rewrite step_mouseup_shown by assumption.
    unfold onMouseup. rewrite Hout. unfold bind.
    rewrite hide_spec by assumption.
    destruct (editorUiElementContains up (target d)); split; try reflexivity.
    - apply (WF_logged CallFocus (hidden s)), WF_hidden_state.
    - apply WF_hidden_state. }
  destruct H1 as [Hwf1 Hv1].
  destruct (click_from_hidden policy click B s1 Hwf1 Hv1 Hlink Hcol)
    as (s' & Hstep & Hv' & Hl' & Hanchor & _).
  subst s2. rewrite Hstep. cbn [stateOf].
  refine (conj Hv1 (conj Hv' (conj _ (conj _ Hanchor)))).
  - now rewrite (tracked_shown _ _ _ s' Hl').
  - unfold closeSubscriptions.
    now destruct (count_shown _ _ _ s' Hl') as (-> & -> & _).
Qed.

Lemma mouseup_then_click_witness :
  tracked (stateOf (step Live (Sample.world (Sample.caretAt 6)) DocumentClick
                      (stateOf (step Live (Sample.world (Sample.caretAt 6))
                                  (DomMouseup {| target := 7; keyCode := 0 |})
                                  (Sample.clickedInLink Live))))) = [5].
Proof.
  apply (mouseup_then_click Live (Sample.world (Sample.caretAt 6))
           (Sample.world (Sample.caretAt 6)) {| target := 7; keyCode := 0 |} 5
           (Sample.clickedInLink Live)).
  - apply Reachable_step, Reachable_initial.
  - reflexivity.
  - reflexivity.
  - split; reflexivity.
Defined.

(** ** What a render notification can do *)

Lemma onRender_cases (policy : DispatchPolicy) (env : Env) (l : NodeRef) (s : State) :
  WF s ->
  exists s' added,
    onRender policy env l s = Ok tt s'
    /\ WF s'
    /\ trace s' = trace s ++ added
    /\ forallb isPositioning added = true.
Proof.
  intros Hwf. unfold onRender.
  destruct (getFirstPosition (selection env)) as [position|].
  - destruct (isCollapsed (selection env)); cbn [negb].
    + unfold bind. simpl.
      destruct (sameLink l _); cbn [negb].
      * rewrite _attachPanelToElement_spec by assumption. simpl.
        eexists. eexists. split; [reflexivity|].
        split; [now apply WF_shown_state|]. split; reflexivity.
      * rewrite _hidePanel_spec by assumption.
        exists (hidden s), [CallHide].
        split; [reflexivity|]. split; [apply WF_hidden_state|]. split; reflexivity.
    + rewrite _hidePanel_spec by assumption.
      exists (hidden s), [CallHide].
      split; [reflexivity|]. split; [apply WF_hidden_state|]. split; reflexivity.
  - exists s, []. split; [reflexivity|]. split; [assumption|].
    split; [now rewrite app_nil_r | reflexivity].
Qed.

Lemma dispatch_render_cases (policy : DispatchPolicy) (env : Env)
      (rs : list (nat * NodeRef)) (s : State) :
  WF s ->
  exists s' added,
    dispatch policy (call policy env None) (map renderSub rs) s = Ok tt s'
    /\ WF s'
    /\ trace s' = trace s ++ added
    /\ forallb isPositioning added = true.
Proof.
  revert s. induction rs as [|r rs IH]; intros s Hwf; simpl.
  - exists s, []. split; [reflexivity|]. split; [assumption|].
    split; [now rewrite app_nil_r | reflexivity].
  - destruct (delivered policy (renderSub r) s); [|now apply IH].
    unfold bind. simpl.
    destruct (onRender_cases policy env (snd r) s Hwf)
      as (s1 & added1 & -> & Hwf1 & Htrace1 & Hpos1).
    destruct (IH s1 Hwf1) as (s2 & added2 & Hd & Hwf2 & Htrace2 & Hpos2).
    exists s2, (added1 ++ added2). split; [exact Hd|]. split; [assumption|].
    split.
    + now rewrite Htrace2, Htrace1, app_assoc.
    + rewrite forallb_app. now rewrite Hpos1, Hpos2.
Qed.

Lemma step_render_cases (policy : DispatchPolicy) (env : Env) (s : State) :
  WF s ->
  exists s' added,
    step policy env RenderCompleted s = Ok tt s'
    /\ trace s' = trace s ++ added
    /\ forallb isPositioning added = true.
Proof.
  intros [Hv Hl | k m rs Hv Hl].
  - exists s, []. split; [|split; [now rewrite app_nil_r | reflexivity]].
    apply fire_none. rewrite Hl. apply static_no_render.
  - destruct (dispatch_render_cases policy env rs s (WF_shown s k m rs Hv Hl))
      as (s' & added & Hd & _ & Htrace & Hpos).
    exists s', added. split; [|now split].
    unfold step, fire. now rewrite Hl, filter_render_shown.
Qed.

(** X12 -- A render notification never throws, and whatever listeners it
    reaches it calls nothing but [attachTo] and [hide]: it never focuses
    the editing view, never selects the URL field and never executes a
    command. *)
Theorem render_only_positions (policy : DispatchPolicy) (env : Env) (s : State) :
  Reachable policy s ->
  exists s' added,
    step policy env RenderCompleted s = Ok tt s'
    /\ trace s' = trace s ++ added
    /\ forallb isPositioning added = true.
Proof.
  intros Hreach. apply step_render_cases. now apply (Reachable_WF policy).
Qed.

Lemma render_only_positions_witness :
  exists s' added,
    step Snapshot (Sample.world (Sample.caretAt 6)) RenderCompleted
      (Sample.clickedInLink Snapshot) = Ok tt s'
    /\ trace s' = trace (Sample.clickedInLink Snapshot) ++ added
    /\ forallb isPositioning added = true.
Proof.
  apply (render_only_positions Snapshot (Sample.world (Sample.caretAt 6))).
  apply Reachable_step, Reachable_initial.
Defined.

(** X13 -- A panel shown by the toolbar button or by the keystroke is not
    tracked: starting from a hidden panel, no later render notification
    moves or hides it, whatever the selection has become. *)
Theorem untracked_panel_ignores_render (policy : DispatchPolicy)
        (env later : Env) (ev : Event) (s : State) :
  Reachable policy s -> isVisible s = false ->
  ev = ToolbarLink \/ ev = KeystrokeCtrlL ->
  step policy later RenderCompleted (stateOf (step policy env ev s))
  = Ok tt (stateOf (step policy env ev s)).
Proof.
  intros Hreach Hv Hev.
  destruct (Reachable_WF policy s Hreach) as [_ Hl | k m rs Hv' _]; [|congruence].
  assert (Hwf : WF s) by now apply WF_hidden.
  assert (Hshape :
    forall s', (s' = s \/ exists a b, s' = logged CallUrlInputSelect (shown a b s)) ->
               step policy later RenderCompleted s' = Ok tt s').
  { intros s' [-> | (a & b & ->)]; apply fire_none.
    - rewrite Hl. apply static_no_render.
    - simpl. rewrite Hv.
      apply (filter_render_shown (nextSid s) (S (nextSid s)) []). }
  assert (Hattach :
    forall r, r = (_attachPanelToElement policy env None ;; log CallUrlInputSelect) s ->
              stateOf r = s
              \/ exists a b, stateOf r = logged CallUrlInputSelect (shown a b s)).
  { intros r ->. unfold bind. rewrite _attachPanelToElement_spec by assumption.
    destruct (anchorFor env None) as [e|a]; [now left|].
    right. now exists a, (DomElementOf (editableElement (selection env))). }
  apply Hshape. destruct Hev as [-> | ->].
  - static_step ToolbarLink OnLinkButtonExecute. simpl call.
    destruct (isFocused env); cbn [negb]; [now apply Hattach | now left].
  - static_step KeystrokeCtrlL OnCtrlL. simpl call. now apply Hattach.
Qed.

Lemma untracked_panel_ignores_render_witness :
  step Snapshot (Sample.world (Sample.caretAt 6)) RenderCompleted
    (Sample.shownOverRange Snapshot)
  = Ok tt (Sample.shownOverRange Snapshot).
Proof.
  apply (untracked_panel_ignores_render Snapshot (Sample.world (Sample.rangeOver 7))
           (Sample.world (Sample.caretAt 6)) ToolbarLink initial
           (Reachable_initial Snapshot)).
  - reflexivity.
  - now left.
Defined.

(** ** Exceptions *)

Lemma linkAtSelection_cases (env : Env) :
  (getFirstPosition (selection env) = None /\ linkAtSelection env = inl TypeError)
  \/ (getFirstPosition (selection env) <> None
      /\ exists r, linkAtSelection env = inr r).
Proof.
  unfold linkAtSelection.
  destruct (getFirstPosition (selection env)) as [p|]; simpl.
  - right. split; [discriminate | eauto].
  - now left.
Qed.

Lemma anchorFor_cases (env : Env) :
  (getFirstPosition (selection env) = None /\ anchorFor env None = inl TypeError)
  \/ (getFirstPosition (selection env) <> None
      /\ exists a, anchorFor env None = inr a).
Proof.
  unfold anchorFor.
  destruct (linkAtSelection_cases env) as [[Hp Hl] | [Hp [r Hl]]];
    unfold linkAtSelection in Hl; rewrite Hl.
  - now left.
  - right. split; [assumption|]. destruct r; eauto.
Qed.

Lemma attachThenSelect_throws (policy : DispatchPolicy) (env : Env) (s : State) :
  WF s -> getFirstPosition (selection env) = None ->
  (_attachPanelToElement policy env None ;; log CallUrlInputSelect) s
  = Throw TypeError s.
Proof.
  intros Hwf Hnull. unfold bind.
  rewrite _attachPanelToElement_spec by assumption.
  destruct (anchorFor_cases env) as [[_ ->] | [Hp _]]; [reflexivity | congruence].
Qed.

Lemma attachThenSelect_returns (policy : DispatchPolicy) (env : Env) (s : State) :
  WF s -> getFirstPosition (selection env) <> None ->
  exists s', (_attachPanelToElement policy env None ;; log CallUrlInputSelect) s
             = Ok tt s'.
Proof.
  intros Hwf Hpos.
  destruct (anchorFor_cases env) as [[Hp _] | [_ [a Ha]]]; [congruence|].
  rewrite (attachThenSelect_spec policy env a) by assumption. eauto.
Qed.

Lemma step_throws (policy : DispatchPolicy) (env : Env) (ev : Event) (s : State) :
  WF s -> needsPosition env ev = true ->
  getFirstPosition (selection env) = None ->
  step policy env ev s = Throw TypeError s.
Proof.
  intros Hwf Hneeds Hnull. destruct ev; try discriminate.
  - static_step ToolbarLink OnLinkButtonExecute. simpl call.
    simpl in Hneeds. rewrite Hneeds. now apply attachThenSelect_throws.
  - static_step KeystrokeCtrlL OnCtrlL. now apply attachThenSelect_throws.
  - static_step DocumentClick OnClick. simpl call. unfold onClick, bind.
    now rewrite Hnull.
Qed.

Lemma thrown_false (o : Outcome) :
  match o with
  | Thrown => true
  | _ => false
  end = false -> o <> Thrown.
Proof. destruct o; [discriminate | discriminate | discriminate]. Qed.

Lemma thrown_true (o : Outcome) :
  match o with
  | Thrown => true
  | _ => false
  end = true -> o = Thrown.
Proof. destruct o; [discriminate | discriminate | reflexivity]. Qed.

Lemma step_execute_throws (policy : DispatchPolicy) (env : Env) (ev : Event) (s : State) :
  WF s -> executeThrows env ev = true ->
  exists command param,
    step policy env ev s
    = Throw CommandError (logged (CallExecute command param Thrown) s).
Proof.
  intros Hwf Hthrows. destruct ev; try discriminate;
    simpl in Hthrows; apply thrown_true in Hthrows.
  - exists "unlink", None.
    static_step ToolbarUnlink OnUnlinkButtonExecute. simpl call. unfold bind.
    now rewrite execute_throws.
  - exists "link", (Some (urlInputValue env)).
    static_step PanelSubmit OnExecuteLink. now apply executeThenHide_throws.
  - exists "unlink", None.
    static_step PanelUnlink OnExecuteUnlink. now apply executeThenHide_throws.
Qed.

Lemma step_returns (policy : DispatchPolicy) (env : Env) (ev : Event) (s : State) :
  WF s ->
  needsPosition env ev = false \/ getFirstPosition (selection env) <> None ->
  executeThrows env ev = false ->
  exists s', step policy env ev s = Ok tt s'.
Proof.
  intros Hwf Hok Hexec. destruct ev.
  - static_step ToolbarLink OnLinkButtonExecute. simpl call.
    destruct (isFocused env) eqn:Hfocus; cbn [negb]; [|eexists; reflexivity].
    apply attachThenSelect_returns; [assumption|].
    destruct Hok as [Hn | Hp]; [simpl in Hn; congruence | assumption].
  - static_step ToolbarUnlink OnUnlinkButtonExecute. simpl call. unfold bind.
    rewrite execute_returns by (apply thrown_false; exact Hexec).
    eexists. reflexivity.
  - static_step KeystrokeCtrlL OnCtrlL.
    apply attachThenSelect_returns; [assumption|].
    destruct Hok as [Hn | Hp]; [discriminate | assumption].
  - static_step DocumentClick OnClick. simpl call.
    destruct Hok as [Hn | Hp]; [discriminate|].
    destruct (linkAtSelection_cases env) as [[Hnull _] | [_ [r Hr]]]; [congruence|].
    destruct r as [l|].
    + destruct (isCollapsed (selection env)) eqn:Hcol.
      * rewrite (onClick_shows policy env l) by assumption. eexists; reflexivity.
      * unfold onClick, bind. unfold linkAtSelection in Hr. rewrite Hr. simpl.
        rewrite Hcol. eexists; reflexivity.
    + unfold onClick, bind. unfold linkAtSelection in Hr. rewrite Hr. simpl.
      eexists; reflexivity.
  - destruct (step_render_cases policy env s Hwf) as (s' & _ & Hs & _).
    exists s'. exact Hs.
  - static_step PanelSubmit OnExecuteLink. simpl call.
    rewrite executeThenHide_spec
      by (assumption || (apply thrown_false; exact Hexec)).
    eexists; reflexivity.
  - static_step PanelUnlink OnExecuteUnlink. simpl call.
    rewrite executeThenHide_spec
      by (assumption || (apply thrown_false; exact Hexec)).
    eexists; reflexivity.
  - static_step PanelCancel OnExecuteCancel. simpl call.
    rewrite _hidePanel_spec by assumption. eexists; reflexivity.
  - destruct (isVisible s) eqn:Hv.
    + rewrite step_keydown_shown by assumption. unfold _closePanelOnClick.
      destruct (Nat.eqb (keyCode domEvt) 27); [|eexists; reflexivity].
      rewrite _hidePanel_spec by assumption. eexists; reflexivity.
    + destruct Hwf as [_ Hl | k m rs Hv' _]; [|congruence].
      exists s. apply fire_none. rewrite Hl. apply static_no_dom.
  - destruct (isVisible s) eqn:Hv.
    + rewrite step_mouseup_shown by assumption. unfold onMouseup.
      destruct (panelElementContains env (target domEvt)); [eexists; reflexivity|].
      unfold bind. rewrite hide_spec by assumption.
      destruct (editorUiElementContains env (target domEvt)); eexists; reflexivity.
    + destruct Hwf as [_ Hl | k m rs Hv' _]; [|congruence].
      exists s. apply fire_none. rewrite Hl. apply static_no_dom.
Qed.

(** X14 -- When an event throws.  In a reachable state an event throws
    in exactly two cases.  The keystroke, the document click and the
    link button of a focused view throw a TypeError when the selection
    has no first position, before anything is changed: the state is
    left as it was.  The submit action, the remove-link action and the
    toolbar's unlink button let through what [editor.execute] throws:
    the call has been made and nothing else has happened.  In every
    other case the event returns. *)
Theorem throws_only_without_position (policy : DispatchPolicy) (env : Env)
        (ev : Event) (s : State) :
  Reachable policy s ->
  (needsPosition env ev = true /\ getFirstPosition (selection env) = None ->
   step policy env ev s = Throw TypeError s)
  /\ (executeThrows env ev = true ->
      exists command param,
        step policy env ev s
        = Throw CommandError (logged (CallExecute command param Thrown) s))
  /\ (~ (needsPosition env ev = true /\ getFirstPosition (selection env) = None) ->
      executeThrows env ev = false ->
      exists s', step policy env ev s = Ok tt s').
Proof.
  intros Hreach. apply Reachable_WF in Hreach. split; [|split].
  - intros [Hneeds Hnull]. now apply step_throws.
  - intros Hthrows. now apply step_execute_throws.
  - intros Hnot Hexec. apply step_returns; [assumption| |assumption].
    destruct (needsPosition env ev); [|now left].
    right. intros Hnull. apply Hnot. now split.
Qed.

Lemma throws_only_without_position_witness :
  step Live (Sample.world Sample.noSelection) DocumentClick (Sample.clickedInLink Live)
  = Throw TypeError (Sample.clickedInLink Live)
  /\
  (exists command param,
     step Live (throwingWorld (Sample.caretAt 4)) PanelSubmit (Sample.clickedInLink Live)
     = Throw CommandError
         (logged (CallExecute command param Thrown) (Sample.clickedInLink Live)))
  /\
  exists s',
    step Live (unfocusedWorld Sample.noSelection) ToolbarLink (Sample.clickedInLink Live)
    = Ok tt s'.
Proof.
  assert (R : Reachable Live (Sample.clickedInLink Live))
    by apply Reachable_step, Reachable_initial.
  split; [|split].
  - apply (proj1 (throws_only_without_position Live (Sample.world Sample.noSelection)
                    DocumentClick _ R)).
    split; reflexivity.
  - apply (proj1 (proj2 (throws_only_without_position Live
                           (throwingWorld (Sample.caretAt 4)) PanelSubmit _ R))).
    reflexivity.
  - apply (proj2 (proj2 (throws_only_without_position Live
                           (unfocusedWorld Sample.noSelection) ToolbarLink _ R))).
    + intros [Hneeds _]. discriminate Hneeds.
    + reflexivity.
Defined.

(** ** Calls to the command layer *)

Lemma positioning_no_execute (added : list Call) :
  forallb isPositioning added = true -> filter isExecuteCall added = [].
Proof.
  induction added as [|c added IH]; simpl; [reflexivity|].
  intros H. apply andb_prop in H. destruct H as [Hc Hrest].
  destruct c; try discriminate; simpl; now apply IH.
Qed.

Lemma executions_logged (c : Call) (s : State) :
  executions (logged c s) = executions s + (if isExecuteCall c then 1 else 0).
Proof.
  unfold executions. simpl. rewrite filter_app, length_app. simpl.
  now destruct (isExecuteCall c).
Qed.

Lemma executions_hidden (s : State) : executions (hidden s) = executions s.
Proof.
  unfold executions. simpl. rewrite filter_app, length_app. simpl. lia.
Qed.

Lemma executions_shown (a b : DomTarget) (s : State) :
  executions (shown a b s) = executions s.
Proof.
  unfold executions. simpl. rewrite filter_app, length_app. simpl. lia.
Qed.

Lemma executions_attachThenSelect (policy : DispatchPolicy) (env : Env) (s : State) :
  WF s ->
  executions (stateOf ((_attachPanelToElement policy env None ;;
                        log CallUrlInputSelect) s)) = executions s.
Proof.
  intros Hwf. unfold bind. rewrite _attachPanelToElement_spec by assumption.
  destruct (anchorFor env None) as [e|a]; [reflexivity|].
  change (executions (logged CallUrlInputSelect
            (shown a (DomElementOf (editableElement (selection env))) s))
          = executions s).
  rewrite executions_logged, executions_shown. simpl. lia.
Qed.

Lemma executions_executeThenHide (policy : DispatchPolicy) (env : Env)
      (command : string) (param : option string) (s : State) :
  WF s ->
  executions (stateOf ((_ <- execute env command param ;; _hidePanel policy true) s))
  = executions s + 1.
Proof.
  intros Hwf. destruct (executeOutcome env command param) eqn:Ho.
  - rewrite executeThenHide_spec by (assumption || (rewrite Ho; discriminate)).
    cbn [stateOf].
    rewrite executions_logged, executions_hidden, executions_logged. simpl. lia.
  - rewrite executeThenHide_spec by (assumption || (rewrite Ho; discriminate)).
    cbn [stateOf].
    rewrite executions_logged, executions_hidden, executions_logged. simpl. lia.
  - rewrite executeThenHide_throws by assumption. cbn [stateOf].
    rewrite executions_logged. simpl. lia.
Qed.

(** X15 -- The command layer is called by the submit action, the remove-link
    action and the toolbar's unlink button, once each time, and by no
    other event: showing, tracking, cancelling and closing the panel
    never execute a command. *)
Theorem executions_by_event (policy : DispatchPolicy) (env : Env)
        (ev : Event) (s : State) :
  Reachable policy s ->
  executions (stateOf (step policy env ev s))
  = executions s + (if mutates ev then 1 else 0).
Proof.
  intros Hreach. pose proof (Reachable_WF policy s Hreach) as Hwf.
  destruct ev; cbn [mutates].
  - static_step ToolbarLink OnLinkButtonExecute. simpl call.
    destruct (isFocused env); cbn [negb].
    + rewrite executions_attachThenSelect by assumption. lia.
    + simpl. lia.
  - static_step ToolbarUnlink OnUnlinkButtonExecute. simpl call. unfold bind.
    pose proof (execute_state env "unlink" None s) as Hstate.
    destruct (execute env "unlink" None s) as [o s' | e s']; simpl in Hstate;
      subst s'; apply (executions_logged (CallExecute "unlink" None _) s).
  - static_step KeystrokeCtrlL OnCtrlL. simpl call.
    rewrite executions_attachThenSelect by assumption. lia.
  - static_step DocumentClick OnClick. simpl call.
    destruct (clickShows env) eqn:Hshows.
    + destruct (clickShows_true env Hshows) as (l & Hlink & Hcol).
      rewrite (onClick_shows policy env l) by assumption.
      change (executions (shown (DomElementOf (Some l))
                (DomElementOf (editableElement (selection env))) s)
              = executions s + 0).
      rewrite executions_shown. lia.
    + rewrite onClick_ignored by assumption. lia.
  - destruct (step_render_cases policy env s Hwf) as (s' & added & -> & Htrace & Hpos).
    unfold executions. cbn [stateOf].
    rewrite Htrace, filter_app, (positioning_no_execute added Hpos), app_nil_r. lia.
  - static_step PanelSubmit OnExecuteLink.
    now apply executions_executeThenHide.
  - static_step PanelUnlink OnExecuteUnlink.
    now apply executions_executeThenHide.
  - static_step PanelCancel OnExecuteCancel. simpl call.
    rewrite _hidePanel_spec by assumption. cbn [stateOf].
    rewrite executions_logged, executions_hidden. simpl. lia.
  - destruct (isVisible s) eqn:Hv.
    + rewrite step_keydown_shown by assumption. unfold _closePanelOnClick.
      destruct (Nat.eqb (keyCode domEvt) 27).
      * rewrite _hidePanel_spec by assumption. cbn [stateOf].
        rewrite executions_logged, executions_hidden. simpl. lia.
      * simpl. lia.
    + destruct Hwf as [_ Hl | k m rs Hv' _]; [|congruence].
      unfold step. rewrite fire_none by (rewrite Hl; apply static_no_dom).
      simpl. lia.
  - destruct (isVisible s) eqn:Hv.
    + rewrite step_mouseup_shown by assumption. unfold onMouseup.
      destruct (panelElementContains env (target domEvt)); [simpl; lia|].
      unfold bind. rewrite hide_spec by assumption.
      destruct (editorUiElementContains env (target domEvt)).
      * change (executions (logged CallFocus (hidden s)) = executions s + 0).
        rewrite executions_logged, executions_hidden. simpl. lia.
      * change (executions (hidden s) = executions s + 0).
        rewrite executions_hidden. lia.
    + destruct Hwf as [_ Hl | k m rs Hv' _]; [|congruence].
      unfold step. rewrite fire_none by (rewrite Hl; apply static_no_dom).
      simpl. lia.
Qed.

Lemma executions_by_event_witness :
  executions (stateOf (step Live (Sample.world (Sample.caretAt 4)) PanelSubmit
                         (Sample.clickedInLink Live))) = 1
  /\
  executions (stateOf (step Live (Sample.world (Sample.caretAt 6)) RenderCompleted
                         (Sample.clickedInLink Live))) = 0.
Proof.
  assert (R : Reachable Live (Sample.clickedInLink Live))
    by apply Reachable_step, Reachable_initial.
  split.
  - apply (executions_by_event Live (Sample.world (Sample.caretAt 4)) PanelSubmit _ R).
  - apply (executions_by_event Live (Sample.world (Sample.caretAt 6))
             RenderCompleted _ R).
Defined.

(** ** What [stopListening] leaves alone *)

Lemma static_kept :
  filter (fun sub => negb (listenedBy BalloonPanelView DomDocument sub)
                     && negb (listenedBy LinkFeature ViewDocument sub)) static
  = static.
Proof. reflexivity. Qed.

(** X16 -- The registrations of [init] are never removed.  In every reachable
    state, setting aside what the panel view listens to on the DOM
    document and what the feature listens to on the view document (the
    two targets of [stopListening]), the registry is what [init] made
    it, in the same order; the click callback, registered with
    [viewDocument.on], is among them. *)
Theorem init_registrations_persist (policy : DispatchPolicy) (s : State) :
  Reachable policy s ->
  filter (fun sub => negb (listenedBy BalloonPanelView DomDocument sub)
                     && negb (listenedBy LinkFeature ViewDocument sub)) (listeners s)
  = static
  /\ exists k, In {| sid := k; listener := None; emitter := ViewDocument;
                     event := "click"; callback := OnClick |} (listeners s).
Proof.
  intros Hreach.
  assert (Hclick : In {| sid := 4; listener := None; emitter := ViewDocument;
                         event := "click"; callback := OnClick |} static)
    by (vm_compute; tauto).
  destruct (Reachable_WF policy s Hreach) as [Hv Hl | k m rs Hv Hl]; rewrite Hl.
  - split; [apply static_kept | now exists 4].
  - split.
    + rewrite filter_app, static_kept. unfold dynamicSubs. simpl.
      rewrite filter_renderSubs_none by reflexivity. apply app_nil_r.
    + exists 4. apply in_or_app. now left.
Qed.

Lemma init_registrations_persist_witness :
  filter (fun sub => negb (listenedBy BalloonPanelView DomDocument sub)
                     && negb (listenedBy LinkFeature ViewDocument sub))
         (listeners (stateOf (step Live (Sample.world (Sample.caretAt 6)) RenderCompleted
                                (Sample.clickedInLink Live))))
  = static.
Proof.
  apply (init_registrations_persist Live).
  apply Reachable_step, Reachable_step, Reachable_initial.
Defined.
